(** * tek_mdo: a VISA driver for the Tektronix MDO34 oscilloscope

    A shallow embedding of [src/tek_mdo/main.py] and the properties of its
    command catalog.

    - [Py]     the fragment of the Python runtime the driver relies on:
               exceptions, [str.strip], numbers ([int] and binary64 [float]),
               their comparisons, and the format codes [d], [.nE], [.nf];
    - [Visa]   the driver's view of a [pyvisa] message based resource: the
               calls issued on it are logged, what they return is decided by
               the instrument;
    - [Driver] the classes [BaseInstrument], [VisaInstrument], [ModelMDO34],
               method by method, in a state-and-exception monad over the
               instrument handle.

    Left out are the methods that only forward to [pyvisa] ([read], the
    binary block transfers, the VISA attributes) and those that need the
    [repr] of a float or [int(text)] ([set_x_position], [stb]). *)

From Stdlib Require Import ZArith QArith List String Ascii Bool Lia.
From Stdlib Require Import DecimalString.
From Stdlib Require Floats.SpecFloat.
Import ListNotations.

#[local] Open Scope string_scope.
#[local] Open Scope Z_scope.

(* ===================================================================== *)
(** * The Python runtime, as far as the driver uses it                    *)
(* ===================================================================== *)

Module Py.

(** ** Exceptions *)

(** The [ValueError]s of the driver carry a message built from the rejected
    argument; the model keeps the place that raised instead of the text. *)
Inductive value_error : Type :=
| InvalidChNum          (* _check_ch_num *)
| InvalidLabel          (* set_channel_label *)
| InvalidCoupling       (* set_channel_coupling *)
| InvalidBandwidth      (* set_channel_bandwidth *)
| InvalidScale          (* set_channel_scale *)
| InvalidPosition       (* set_channel_position *)
| InvalidMathType       (* set_math_channel_type *)
| InvalidXScale         (* set_x_scale *)
| EmptyIDN              (* _check_communication *)
| NotAFloat             (* float(text) on text that is no number *)
| TooManyDigits.        (* an int with more digits than the limit, as text *)

(** What the VISA library can raise at the driver. [VisaIOError] is the only
    one [_check_communication] catches. *)
Inductive visa_error : Type :=
| VisaIOError (status : Z)
| InvalidSession
| LibraryError (what : string).

Inductive exn : Type :=
| ValueError (why : value_error)
| OverflowError                     (* int too large to convert to float *)
| TypeError                         (* arguments do not fit a signature *)
| InstrIOError (msg : string)
| Visa (e : visa_error).

Inductive result (A : Type) : Type :=
| Ok (a : A)
| Raise (e : exn).
Arguments Ok {A} a.
Arguments Raise {A} e.

Definition is_ok {A} (r : result A) : bool :=
  match r with Ok _ => true | Raise _ => false end.

Definition is_value_error {A} (r : result A) : bool :=
  match r with Raise (ValueError _) => true | _ => false end.

(** ** Text

    A [str] is modelled as a [string] of code points below 256. *)

(** [str.isspace] on one character, for the code points below 256. *)
Definition isspace (c : ascii) : bool :=
  let n := N_of_ascii c in
  (((9 <=? n) && (n <=? 13)) || ((28 <=? n) && (n <=? 32))
   || (n =? 133) || (n =? 160))%N.

(** The double quote character, code point 34, and the one-character text. *)
Definition dquote_char : ascii := ascii_of_nat 34.
Definition dquote : string := String dquote_char EmptyString.

Definition is_quote (c : ascii) : bool := Ascii.eqb c dquote_char.

Fixpoint lstrip (p : ascii -> bool) (s : string) : string :=
  match s with
  | EmptyString => EmptyString
  | String c r => if p c then lstrip p r else s
  end.

Fixpoint rstrip (p : ascii -> bool) (s : string) : string :=
  match s with
  | EmptyString => EmptyString
  | String c r =>
      match rstrip p r with
      | EmptyString => if p c then EmptyString else String c EmptyString
      | r' => String c r'
      end
  end.

(** [s.strip()] and [s.strip(chars)]: the longest run of matching
    characters is removed at both ends. *)
Definition strip_with (p : ascii -> bool) (s : string) : string :=
  rstrip p (lstrip p s).

Definition strip (s : string) : string := strip_with isspace s.
Definition strip_quotes (s : string) : string := strip_with is_quote s.

(** [not s] for a [str]. *)
Definition is_empty (s : string) : bool :=
  match s with EmptyString => true | _ => false end.

(** [x in (a, b, ...)] for strings. *)
Definition str_in (x : string) (l : list string) : bool :=
  existsb (String.eqb x) l.

(** ** Integers in decimal: [f'{n:d}'] and [f'{n}']

    [format_d] is the decimal text of an integer. The interpreter refuses
    to produce it for an [int] with more digits than its limit, see
    [int_to_str]; a channel number that passed [_check_ch_num] is one of 1,
    2, 3, 4 and has its text under every limit. *)

Definition format_d (n : Z) : string := NilZero.string_of_int (Z.to_int n).

(** Number of decimal digits of a positive integer. *)
Definition ndigits (n : Z) : Z := Z.of_nat (String.length (format_d n)).

(** [sys.int_info.default_max_str_digits]: the limit an interpreter starts
    with. *)
Definition int_max_str_digits : Z := 4300.

(** The conversion of an [int] to text, [str(n)] and the format code [d],
    under the limit [sys.get_int_max_str_digits()]: an [int] with more
    digits than the limit, the sign not counted, raises [ValueError]. The
    limit 0 lifts the restriction. *)
Definition int_to_str (limit : Z) (n : Z) : result string :=
  if (0 <? limit) && (limit <? ndigits (Z.abs n))
  then Raise (ValueError TooManyDigits)
  else Ok (format_d n).

(** ** Numbers: [int] and [float]

    An [int] is an integer of any size, a [float] an IEEE 754 binary64
    value, as specified by [SpecFloat] with precision 53 and [emax] 1024. *)

Import Floats.SpecFloat.

Definition prec : Z := 53.
Definition emax : Z := 1024.

Inductive number : Type :=
| PyInt (z : Z)
| PyFloat (f : spec_float).

(** The values that reach the driver as arguments. *)
Inductive pyval : Type :=
| VNone
| VBool (b : bool)
| VNum (n : number)
| VStr (s : string).

(** The value a number denotes: an extended rational, or nothing for NaN. *)
Inductive xval : Type :=
| NegInf
| Fin (q : Q)
| PosInf.

Definition finite_value (s : bool) (m : positive) (e : Z) : Q :=
  let a := cond_Zopp s (Zpos m) in
  if 0 <=? e then inject_Z (a * 2 ^ e) else Qmake a (Z.to_pos (2 ^ (- e))).

Definition float_value (f : spec_float) : option xval :=
  match f with
  | S754_nan => None
  | S754_infinity s => Some (if s then NegInf else PosInf)
  | S754_zero _ => Some (Fin 0)
  | S754_finite s m e => Some (Fin (finite_value s m e))
  end.

Definition value (x : number) : option xval :=
  match x with
  | PyInt z => Some (Fin (inject_Z z))
  | PyFloat f => float_value f
  end.

Definition xle (x y : xval) : bool :=
  match x, y with
  | NegInf, _ => true
  | _, PosInf => true
  | Fin a, Fin b => Qle_bool a b
  | _, _ => false
  end.

(** [a <= b] on numbers: Python compares [int] with [float] by their exact
    values, and every comparison with NaN is false. *)
Definition py_le (a b : number) : bool :=
  match value a, value b with
  | Some x, Some y => xle x y
  | _, _ => false
  end.

(** [float(z)] for an [int]: rounded to nearest, ties to even; an integer
    beyond the range of binary64 raises [OverflowError]. *)
Definition float_of_int (z : Z) : result spec_float :=
  match binary_normalize prec emax z 0 false with
  | S754_infinity _ => Raise OverflowError
  | f => Ok f
  end.

(** The conversion the format codes [E] and [f] apply to their argument. *)
Definition to_float (x : number) : result spec_float :=
  match x with
  | PyInt z => float_of_int z
  | PyFloat f => Ok f
  end.

(** The literal [10E-12]: the binary64 value nearest to 10^-11. *)
Definition lit_10E_12 : spec_float :=
  S754_finite false 6189700196426901 (-89).

(** [int * float]: the [int] operand is converted, then IEEE multiplication. *)
Definition int_mul_float (z : Z) (f : spec_float) : result spec_float :=
  match float_of_int z with
  | Ok g => Ok (SFmul prec emax g f)
  | Raise e => Raise e
  end.

(** ** Format codes [.pE] and [.pf]

    Python prints the decimal expansion of the exact binary value, rounded
    to the requested number of digits, ties to even. *)

Definition round_half_even (a b : Z) : Z :=
  let q := a / b in
  match 2 * (a mod b) ?= b with
  | Lt => q
  | Gt => q + 1
  | Eq => if Z.even q then q else q + 1
  end.

(** A positive finite float [m * 2^e] as a fraction of positive integers. *)
Definition fraction (m : positive) (e : Z) : Z * Z :=
  if 0 <=? e then (Zpos m * 2 ^ e, 1) else (Zpos m, 2 ^ (- e)).

(** The [k] with [10^k <= num/den < 10^(k+1)], for positive [num], [den]. *)
Definition dec_exponent (num den : Z) : Z :=
  if den <=? num then ndigits (num / den) - 1
  else - ndigits ((den - 1) / num).

Fixpoint zeros (n : nat) : string :=
  match n with O => EmptyString | S k => String "0" (zeros k) end.

Definition pad_left (width : nat) (s : string) : string :=
  zeros (width - String.length s) ++ s.

(** The [p + 1] significant digits, as an integer, and the decimal exponent. *)
Definition sci_digits (p num den : Z) : Z * Z :=
  let k := dec_exponent num den in
  let sh := p - k in
  let D := if 0 <=? sh then round_half_even (num * 10 ^ sh) den
           else round_half_even num (den * 10 ^ (- sh)) in
  if 10 ^ (p + 1) <=? D then (D / 10, k + 1) else (D, k).

Definition sign_text (s : bool) : string := if s then "-" else EmptyString.

Definition mantissa_text (p D : Z) : string :=
  match pad_left (Z.to_nat p + 1) (format_d D) with
  | String c rest => String c (if is_empty rest then EmptyString else "." ++ rest)
  | EmptyString => EmptyString
  end.

Definition exponent_text (k : Z) : string :=
  (if k <? 0 then "-" else "+") ++ pad_left 2 (format_d (Z.abs k)).

Definition fixed_text (p D : Z) : string :=
  format_d (D / 10 ^ p)
  ++ (if p =? 0 then EmptyString
      else "." ++ pad_left (Z.to_nat p) (format_d (D mod 10 ^ p))).

(** [f'{x:.pE}'] for a float. *)
Definition float_E (p : Z) (f : spec_float) : string :=
  match f with
  | S754_nan => "NAN"
  | S754_infinity s => sign_text s ++ "INF"
  | S754_zero s => sign_text s ++ mantissa_text p 0 ++ "E+00"
  | S754_finite s m e =>
      let (num, den) := fraction m e in
      let (D, k) := sci_digits p num den in
      sign_text s ++ mantissa_text p D ++ "E" ++ exponent_text k
  end.

(** [f'{x:.pf}'] for a float. *)
Definition float_f (p : Z) (f : spec_float) : string :=
  match f with
  | S754_nan => "nan"
  | S754_infinity s => sign_text s ++ "inf"
  | S754_zero s => sign_text s ++ fixed_text p 0
  | S754_finite s m e =>
      let (num, den) := fraction m e in
      sign_text s ++ fixed_text p (round_half_even (num * 10 ^ p) den)
  end.

(** [f'{x:.pE}'] and [f'{x:.pf}'] for a number: an [int] is converted to
    [float] first, which is where [OverflowError] can come from. *)
Definition format_E (p : Z) (x : number) : result string :=
  match to_float x with
  | Ok f => Ok (float_E p f)
  | Raise e => Raise e
  end.

Definition format_f (p : Z) (x : number) : result string :=
  match to_float x with
  | Ok f => Ok (float_f p f)
  | Raise e => Raise e
  end.

End Py.

(* ===================================================================== *)
(** * The VISA resource, as the driver sees it                            *)
(* ===================================================================== *)

(** [pyvisa] and the instrument behind it are not part of the repository.
    The driver only ever calls [write], [query] and [close] on the resource
    that [open_resource] returned. The model logs those calls and leaves
    their outcome to the instrument: a function of the calls made so far. *)

Module Visa.
Import Py.

(** A call that hands a message to the resource. *)
Inductive call : Type :=
| Write (message : string)
| Query (message : string).

Inductive reply (A : Type) : Type :=
| Done (a : A)
| Failed (e : visa_error).
Arguments Done {A} a.
Arguments Failed {A} e.

Definition to_result {A} (r : reply A) : result A :=
  match r with
  | Done a => Ok a
  | Failed e => Raise (Visa e)
  end.

(** The instrument and the transport: what a call returns, given every call
    made up to and including it. *)
Record Device : Type := {
  on_write : list call -> reply Z;          (* number of bytes written *)
  on_query : list call -> reply string;     (* the answer read back *)
  on_close : list call -> option Z          (* [Some status]: viClose failed *)
}.

Record Resource : Type := {
  device : Device;
  calls : list call;      (* write and query calls so far, oldest first *)
  session : bool          (* the VISA session is still valid *)
}.

Definition log (c : call) (r : Resource) : Resource :=
  {| device := device r; calls := calls r ++ [c]; session := session r |}.

(** [resource.write(message, None, None)]: the call is made, and on a
    closed resource the session lookup raises [InvalidSession]. *)
Definition write (message : string) (r : Resource) : result Z * Resource :=
  let r' := log (Write message) r in
  if session r then (to_result (on_write (device r) (calls r')), r')
  else (Raise (Visa InvalidSession), r').

(** [resource.query(message, None)]: a write followed by a read. *)
Definition query (message : string) (r : Resource) : result string * Resource :=
  let r' := log (Query message) r in
  if session r then (to_result (on_query (device r) (calls r')), r')
  else (Raise (Visa InvalidSession), r').

(** [resource.close()]: closes the session and marks the handle as invalid;
    on a resource that is closed already the [InvalidSession] of the session
    lookup is swallowed and nothing happens. *)
Definition close (r : Resource) : result unit * Resource :=
  if session r then
    match on_close (device r) (calls r) with
    | None => (Ok tt, {| device := device r; calls := calls r; session := false |})
    | Some status => (Raise (Visa (VisaIOError status)), r)
    end
  else (Ok tt, r).

End Visa.

(* ===================================================================== *)
(** * The driver                                                          *)
(* ===================================================================== *)

Module Driver.
Import Py Visa.
Import Floats.SpecFloat.

(** ** Instances and methods *)

(** The attributes of an instance: [BaseInstrument.__resource_name] and
    [VisaInstrument._inst]. *)
Record handle : Type := {
  resource_name : pyval;
  _inst : Resource
}.

(** A method body: it runs on [self], returns or raises, and leaves [self]
    as it is at that point. *)
Definition M (A : Type) : Type := handle -> result A * handle.

Definition ret {A} (a : A) : M A := fun self => (Ok a, self).

Definition raise {A} (e : exn) : M A := fun self => (Raise e, self).

Definition bind {A B} (m : M A) (k : A -> M B) : M B :=
  fun self =>
    match m self with
    | (Ok a, self') => k a self'
    | (Raise e, self') => (Raise e, self')
    end.

Notation "x <- m ;; k" := (bind m (fun x => k))
  (at level 100, m at next level, right associativity).
Notation "m ;;; k" := (bind m (fun _ => k))
  (at level 100, right associativity).

(** A pure computation of the runtime that may raise. *)
Definition lift {A} (r : result A) : M A := fun self => (r, self).

(** [try: body  except <handled>: handler]: [handles e] is the handler for
    the exceptions the clause catches, and [None] for the others. *)
Definition try_except {A} (body : M A) (handles : exn -> option (M A)) : M A :=
  fun self =>
    match body self with
    | (Ok a, self') => (Ok a, self')
    | (Raise e, self') =>
        match handles e with
        | Some handler => handler self'
        | None => (Raise e, self')
        end
    end.

(** A call on [self._inst]. *)
Definition on_inst {A} (f : Resource -> result A * Resource) : M A :=
  fun self =>
    let (a, r) := f (_inst self) in
    (a, {| resource_name := resource_name self; _inst := r |}).

(** The calls made on the resource of an instance so far. *)
Definition sent (self : handle) : list call := calls (_inst self).

(** ** class VisaInstrument *)

(** [write], with the termination and the encoding of the session. *)
Definition write (message : string) : M Z := on_inst (Visa.write message).

Definition command (message : string) : M Z := write message.

Definition query (message : string) : M string := on_inst (Visa.query message).

Definition idn : M string := query "*IDN?".

Definition opc : M string := query "*OPC?".

Definition cls : M unit := command "*CLS" ;;; ret tt.

Definition close : M unit := on_inst Visa.close.

Definition __enter__ : M handle := fun self => (Ok self, self).

Definition __exit__ : M unit := close.

Definition _check_communication : M unit :=
  try_except
    (idn <- idn ;;
     if is_empty idn then raise (ValueError EmptyIDN) else ret tt)
    (fun e =>
       match e with
       | Visa (VisaIOError _) =>
           Some (raise (InstrIOError "Check communication failed."))
       | _ => None
       end).

(** ** Construction *)

Definition newline : string := String (ascii_of_nat 10) EmptyString.

Definition VI_READ_TERMINATION : pyval := VStr newline.
Definition VI_WRITE_TERMINATION : pyval := VStr newline.
Definition VI_TIMEOUT : pyval := VNum (PyInt 2000).
Definition VI_OPEN_TIMEOUT : pyval := VNum (PyInt 0).
(** The literal [0.001]. *)
Definition VI_QUERY_DELAY : pyval :=
  VNum (PyFloat (S754_finite false 4611686018427388 (-62))).

(** The arguments of a call: [*args] and [**kwargs]. *)
Record arguments : Type := {
  positional : list pyval;
  keywords : list (string * pyval)
}.

Fixpoint lookup (name : string) (kw : list (string * pyval)) : option pyval :=
  match kw with
  | [] => None
  | (k, v) :: rest => if String.eqb name k then Some v else lookup name rest
  end.

Definition without (names : list string) (kw : list (string * pyval))
  : list (string * pyval) :=
  filter (fun p => negb (str_in (fst p) names)) kw.

(** A parameter with a default value. *)
Definition param (name : string) (default : pyval) (kw : list (string * pyval))
  : pyval :=
  match lookup name kw with
  | Some v => v
  | None => default
  end.

(** [pyvisa] at construction time: [ResourceManager()] and
    [rm.open_resource(resource_name, **options)] may raise anything. *)
Record World : Type := {
  ResourceManager : result unit;
  open_resource : pyval -> list (string * pyval) -> result Resource
}.

(** The keyword arguments [VisaInstrument.__init__] passes to
    [open_resource]: its six named parameters, then the other [kwargs]. *)
Definition open_options (kwargs : list (string * pyval))
  : list (string * pyval) :=
  [ ("read_termination", param "read_termination" VI_READ_TERMINATION kwargs);
    ("write_termination", param "write_termination" VI_WRITE_TERMINATION kwargs);
    ("open_timeout", param "open_timeout" VI_OPEN_TIMEOUT kwargs);
    ("timeout", param "timeout" VI_TIMEOUT kwargs);
    ("query_delay", param "query_delay" VI_QUERY_DELAY kwargs);
    ("encoding", param "encoding" (VStr "ascii") kwargs) ]
  ++ without ["read_termination"; "write_termination"; "timeout";
              "open_timeout"; "query_delay"; "encoding"] kwargs.

(** [VisaInstrument.__init__]. *)
Definition VisaInstrument_init (w : World) (resource_name : pyval)
    (kwargs : list (string * pyval)) : result handle :=
  match ResourceManager w with
  | Raise e => Raise e
  | Ok _ =>
      match open_resource w resource_name (open_options kwargs) with
      | Raise e => Raise e
      | Ok inst =>
          let self := {| resource_name := resource_name; _inst := inst |} in
          match _check_communication self with
          | (Ok _, self') => Ok self'
          | (Raise e, _) => Raise e
          end
      end
  end.

(** Binding the arguments of a call to the signature
    [__init__(self, resource_name, **kwargs)] of [ModelMDO34]. *)
Definition bind_signature (args : arguments)
  : result (pyval * list (string * pyval)) :=
  match lookup "self" (keywords args) with
  | Some _ => Raise TypeError       (* multiple values for argument self *)
  | None =>
      match positional args with
      | [] =>
          match lookup "resource_name" (keywords args) with
          | Some v => Ok (v, without ["resource_name"] (keywords args))
          | None => Raise TypeError
          end
      | [v] =>
          match lookup "resource_name" (keywords args) with
          | Some _ => Raise TypeError
          | None => Ok (v, keywords args)
          end
      | _ => Raise TypeError
      end
  end.

(** Calling the class [ModelMDO34] on [args]: its [__init__] passes the
    resource name and the keyword arguments on to [VisaInstrument]. *)
Definition ModelMDO34_init (w : World) (args : arguments) : result handle :=
  match bind_signature args with
  | Raise e => Raise e
  | Ok (resource_name, kwargs) => VisaInstrument_init w resource_name kwargs
  end.

(** [BaseInstrument.create], a classmethod: [cls] is the constructor of the
    class it is called on. The bare [except:] catches every exception. *)
Definition create (cls : arguments -> result handle) (args : arguments)
  : result (option handle) :=
  match cls args with
  | Ok instance => Ok (Some instance)
  | Raise _ => Ok None
  end.

(** ** class ModelMDO34 *)

Definition CH_NUMS : list Z := [1; 2; 3; 4].

Definition _check_ch_num (ch_num : Z) : M unit :=
  if negb (existsb (Z.eqb ch_num) CH_NUMS)
  then raise (ValueError InvalidChNum)
  else ret tt.

Definition _disable_response_header : M unit :=
  command ":HDR OFF" ;;; ret tt.

Definition set_channel_label (ch_num : Z) (label : pyval) : M unit :=
  _check_ch_num ch_num ;;;
  match label with
  | VStr s =>
      if 30 <? Z.of_nat (String.length s)
      then raise (ValueError InvalidLabel)
      else command ("CH" ++ format_d ch_num ++ ":LABel " ++ dquote ++ s ++ dquote) ;;;
           ret tt
  | _ => raise (ValueError InvalidLabel)
  end.

Definition get_channel_label (ch_num : Z) : M string :=
  _check_ch_num ch_num ;;;
  r <- query ("CH" ++ format_d ch_num ++ ":LABel?") ;;
  ret (strip_quotes (strip r)).

Definition set_channel_coupling (ch_num : Z) (coupling : string) : M unit :=
  _check_ch_num ch_num ;;;
  if negb (str_in coupling ["AC"; "DC"; "DCREJect"])
  then raise (ValueError InvalidCoupling)
  else command ("CH" ++ format_d ch_num ++ ":COUPling " ++ coupling) ;;;
       ret tt.

Definition get_channel_coupling (ch_num : Z) : M string :=
  _check_ch_num ch_num ;;;
  r <- query ("CH" ++ format_d ch_num ++ ":COUPling?") ;;
  ret (strip r).

Definition set_channel_bandwidth (ch_num : Z) (bandwidth : number) : M unit :=
  _check_ch_num ch_num ;;;
  if py_le bandwidth (PyInt 0)
  then raise (ValueError InvalidBandwidth)
  else text <- lift (format_E 4 bandwidth) ;;
       command ("CH" ++ format_d ch_num ++ ":BANdwidth " ++ text) ;;;
       ret tt.

Definition set_channel_scale (ch_num : Z) (scale : number) : M unit :=
  _check_ch_num ch_num ;;;
  if py_le scale (PyInt 0)
  then raise (ValueError InvalidScale)
  else text <- lift (format_E 3 scale) ;;
       command ("CH" ++ format_d ch_num ++ ":SCAle " ++ text) ;;;
       ret tt.

Definition set_channel_position (ch_num : Z) (position : number) : M unit :=
  _check_ch_num ch_num ;;;
  if negb (py_le (PyInt (-8)) position && py_le position (PyInt 8))
  then raise (ValueError InvalidPosition)
  else text <- lift (format_f 3 position) ;;
       command ("CH" ++ format_d ch_num ++ ":POSition " ++ text) ;;;
       ret tt.

Section NumericGetters.

(** [float(text)], the built-in conversion of the answer of a query. *)
Variable float_of_str : string -> result spec_float.

Definition get_channel_bandwidth (ch_num : Z) : M spec_float :=
  _check_ch_num ch_num ;;;
  r <- query ("CH" ++ format_d ch_num ++ ":BANdwidth?") ;;
  bw <- lift (float_of_str r) ;;
  ret bw.

Definition get_channel_scale (ch_num : Z) : M spec_float :=
  _check_ch_num ch_num ;;;
  r <- query ("CH" ++ format_d ch_num ++ ":SCAle?") ;;
  scale <- lift (float_of_str r) ;;
  ret scale.

Definition get_channel_position (ch_num : Z) : M spec_float :=
  _check_ch_num ch_num ;;;
  r <- query ("CH" ++ format_d ch_num ++ ":POSition?") ;;
  position <- lift (float_of_str r) ;;
  ret position.

Definition get_x_scale : M spec_float :=
  r <- query "HORizontal:SCAle?" ;;
  scale <- lift (float_of_str r) ;;
  ret scale.

End NumericGetters.

Definition set_math_channel_type (num : Z) (math_type : string) : M unit :=
  if negb (str_in math_type ["DUAL"; "FFT"; "ADVanced"; "SPECTRUM"])
  then raise (ValueError InvalidMathType)
  else command ("MATH" ++ format_d num ++ ":TYPe " ++ math_type) ;;;
       ret tt.

Definition get_math_channel_type (num : Z) : M string :=
  query ("MATH" ++ format_d num ++ ":TYPe?").

Definition set_math_channel_function (num : Z) (function : string) : M unit :=
  command ("MATH" ++ format_d num ++ ":DEFine " ++ dquote ++ function ++ dquote) ;;;
  ret tt.

Definition get_math_channel_function (num : Z) : M string :=
  r <- query ("MATH" ++ format_d num ++ ":DEFine?") ;;
  ret (strip_quotes (strip r)).

(** The lower bound in [set_x_scale], written [400 * 10E-12]. *)
Definition x_scale_lower : result spec_float := int_mul_float 400 lit_10E_12.

Definition set_x_scale (scale : number) : M unit :=
  lower <- lift x_scale_lower ;;
  if negb (py_le (PyFloat lower) scale && py_le scale (PyInt 1000))
  then raise (ValueError InvalidXScale)
  else text <- lift (format_E 4 scale) ;;
       let cmd := "HORizontal:SCAle " ++ text in
       ret tt.

(** ** Math channels under the digit limit

    The math-channel methods format [num] without a check of their own, so
    the conversion of [num] to text is where the limit of the interpreter
    shows. [limit] is [sys.get_int_max_str_digits()]. The methods above are
    these with the limit lifted; for a [num] within the limit both agree. *)

Module Limited.
Section Limit.

Variable limit : Z.

Definition set_math_channel_type (num : Z) (math_type : string) : M unit :=
  if negb (str_in math_type ["DUAL"; "FFT"; "ADVanced"; "SPECTRUM"])
  then raise (ValueError InvalidMathType)
  else text <- lift (int_to_str limit num) ;;
       command ("MATH" ++ text ++ ":TYPe " ++ math_type) ;;;
       ret tt.

Definition get_math_channel_type (num : Z) : M string :=
  text <- lift (int_to_str limit num) ;;
  query ("MATH" ++ text ++ ":TYPe?").

Definition set_math_channel_function (num : Z) (function : string) : M unit :=
  text <- lift (int_to_str limit num) ;;
  command ("MATH" ++ text ++ ":DEFine " ++ dquote ++ function ++ dquote) ;;;
  ret tt.

Definition get_math_channel_function (num : Z) : M string :=
  text <- lift (int_to_str limit num) ;;
  r <- query ("MATH" ++ text ++ ":DEFine?") ;;
  ret (strip_quotes (strip r)).

End Limit.
End Limited.

(** ** Scoped use

    [with instrument as inst: body]. Python calls [__enter__], runs the
    body, and calls [__exit__] on every way out of it. [__exit__] returns
    [None], so an exception of the body is raised again after the close; an
    exception of [__exit__] itself takes its place. *)
Definition with_block {A} (body : handle -> M A) : M A :=
  fun self =>
    match __enter__ self with
    | (Raise e, self1) => (Raise e, self1)
    | (Ok inst, self1) =>
        let (r, self2) := body inst self1 in
        match __exit__ self2 with
        | (Ok _, self3) => (r, self3)
        | (Raise e, self3) => (Raise e, self3)
        end
    end.

End Driver.

(* ===================================================================== *)
(** * What is observed of a method call                                   *)
(* ===================================================================== *)

Module Obs.
Import Py Visa Driver.

(** The number lies in the closed interval [[lo, hi]]. *)
Definition in_interval (lo hi : Q) (x : number) : Prop :=
  match value x with
  | Some (Fin q) => (lo <= q /\ q <= hi)%Q
  | _ => False
  end.

(** [x <= 0] and [x > 0]; a NaN is neither. *)
Definition non_positive (x : number) : Prop :=
  match value x with
  | Some NegInf => True
  | Some (Fin q) => (q <= 0)%Q
  | _ => False
  end.

Definition positive (x : number) : Prop :=
  match value x with
  | Some PosInf => True
  | Some (Fin q) => (0 < q)%Q
  | _ => False
  end.

(** The call raises the [ValueError] of the given check and leaves the
    instance as it was: no call was made on the resource. *)
Definition rejects {A} (m : M A) (why : value_error) (self : handle) : Prop :=
  m self = (Raise (ValueError why), self).

(** The call makes exactly one call on the resource, the given one, and
    does not end in a [ValueError]. *)
Definition transmits {A} (m : M A) (c : call) (self : handle) : Prop :=
  sent (snd (m self)) = (sent self ++ [c])%list
  /\ is_value_error (fst (m self)) = false.

(** The strip-whitespace-then-strip-quotes normal form of an answer. *)
Definition normal_form (r : string) : string := strip_quotes (strip r).

(** The exact value of the lower bound [400 * 10E-12] of [set_x_scale],
    just below 4e-9. *)
Definition x_scale_min : Q := finite_value false 4835703278458516 (-80).

(** What a call leaves alone: the resource name, the instrument behind the
    resource, and whether the session is valid. *)
Definition same_session (self self' : handle) : Prop :=
  resource_name self' = resource_name self
  /\ device (_inst self') = device (_inst self)
  /\ session (_inst self') = session (_inst self).

(** The list of calls is as before, or longer by one call. *)
Definition grows_by_one (before after : list call) : Prop :=
  after = before \/ exists c, after = (before ++ [c])%list.

(** A method that makes at most one call on the resource and leaves the
    rest of the instance alone. *)
Definition at_most_one_call {A} (m : M A) : Prop :=
  forall self,
    same_session self (snd (m self))
    /\ grows_by_one (sent self) (sent (snd (m self))).

(** A step that does not touch the instance at all. *)
Definition silent {A} (m : M A) : Prop :=
  forall self, snd (m self) = self.


Definition first_char (s : string) : option ascii :=
  match s with
  | EmptyString => None
  | String c _ => Some c
  end.

Fixpoint last_char (s : string) : option ascii :=
  match s with
  | EmptyString => None
  | String c EmptyString => Some c
  | String _ r => last_char r
  end.

(** The text neither begins nor ends with a double quote. *)
Definition unquoted (s : string) : Prop :=
  first_char s <> Some dquote_char /\ last_char s <> Some dquote_char.

(** Every character of the text is whitespace. *)
Fixpoint blank (s : string) : bool :=
  match s with
  | EmptyString => true
  | String c r => isspace c && blank r
  end.

End Obs.

(* ===================================================================== *)
(** * Simulated instruments                                               *)
(* ===================================================================== *)

Module Bench.
Import Py Visa Driver.
Import Floats.SpecFloat.

(** The bytes a write puts on the wire: the message and the terminator. *)
Definition bytes_of_last (l : list call) : Z :=
  match last l (Write EmptyString) with
  | Write m | Query m => Z.of_nat (String.length m) + 1
  end.

(** An instrument that answers every query with the same text. *)
Definition answering (text : string) : Device :=
  {| on_write := fun l => Done (bytes_of_last l);
     on_query := fun _ => Done text;
     on_close := fun _ => None |}.

(** An instrument that does not answer: every read times out. *)
Definition VI_ERROR_TMO : Z := -1073807339.

Definition mute : Device :=
  {| on_write := fun l => Done (bytes_of_last l);
     on_query := fun _ => Failed (VisaIOError VI_ERROR_TMO);
     on_close := fun _ => None |}.

Definition opened (d : Device) : handle :=
  {| resource_name := VStr "USB0::0x0699::0x052C::C010001::INSTR";
     _inst := {| device := d; calls := []; session := true |} |}.

Definition scope : handle := opened (answering "TEKTRONIX,MDO34,C010001,CF:91.1CT").

(** A world with one instrument on the bus. *)
Definition lab (d : Device) : World :=
  {| ResourceManager := Ok tt;
     open_resource := fun name _ =>
       match name with
       | VStr _ => Ok {| device := d; calls := []; session := true |}
       | _ => Raise TypeError
       end |}.

(** The float literals [1e-9], [8.01] and [-8.01]. *)
Definition one_ns : spec_float := S754_finite false 4835703278458517 (-82).
Definition lit_8_01 : spec_float := S754_finite false 4509229126904709 (-49).
Definition lit_m8_01 : spec_float := S754_finite true 4509229126904709 (-49).

(** Answers of an instrument: a coupling in quotes, a math type and a label
    with blanks around them. *)
Definition quoted_AC : string := dquote ++ "AC" ++ dquote.
Definition padded_DUAL : string := " DUAL ".
Definition padded_label : string := " " ++ dquote ++ "probe A" ++ dquote ++ " ".

(** The [int] 10**400. *)
Definition huge : number := PyInt (10 ^ 400).

(** The [int] 10**4300, of 4301 digits. *)
Definition longer : Z := 10 ^ 4300.

(** The text of a command after its first blank: the argument. *)
Fixpoint argument_of (m : string) : string :=
  match m with
  | EmptyString => EmptyString
  | String c r => if Ascii.eqb c " "%char then r else argument_of r
  end.

(** An instrument that answers a query with the argument of the write just
    before it, followed by a line feed, and with nothing otherwise. *)
Definition echo : Device :=
  {| on_write := fun l => Done (bytes_of_last l);
     on_query := fun l =>
       match rev l with
       | Query _ :: Write m :: _ => Done (argument_of m ++ newline)
       | _ => Done EmptyString
       end;
     on_close := fun _ => None |}.

(** An instrument whose session cannot be closed. *)
Definition VI_ERROR_CLOSING_FAILED : Z := -1073807338.

Definition stuck : Device :=
  {| on_write := fun l => Done (bytes_of_last l);
     on_query := fun _ => Done "TEKTRONIX,MDO34";
     on_close := fun _ => Some VI_ERROR_CLOSING_FAILED |}.

End Bench.

(* ===================================================================== *)
(** * Properties                                                          *)
(* ===================================================================== *)

Import Py Visa Driver Obs.
Import Floats.SpecFloat.

(** ** Calls on the resource *)

Lemma write_logged message self :
  sent (snd (write message self)) = (sent self ++ [Write message])%list
  /\ is_value_error (fst (write message self)) = false.
Proof.
  unfold write, on_inst, Visa.write, sent.
  destruct (session (_inst self)); simpl; [| now split].
  split; [reflexivity |].
  now destruct (on_write _ _).
Qed.

Lemma query_logged message self :
  sent (snd (query message self)) = (sent self ++ [Query message])%list
  /\ is_value_error (fst (query message self)) = false.
Proof.
  unfold query, on_inst, Visa.query, sent.
  destruct (session (_inst self)); simpl; [| now split].
  split; [reflexivity |].
  now destruct (on_query _ _).
Qed.

(** A setter ends with [self.command(cmd)] and returns [None]. *)
Lemma command_transmits message self :
  transmits (command message ;;; ret tt) (Write message) self.
Proof.
  destruct (write_logged message self) as [Hs Hv].
  unfold transmits, bind, command, ret.
  destruct (write message self) as [[n | e] self']; simpl in *; auto.
Qed.

Lemma query_transmits message self :
  transmits (query message) (Query message) self.
Proof. exact (query_logged message self). Qed.

Lemma query_then_transmits {A} message (f : string -> A) self :
  transmits (r <- query message ;; ret (f r)) (Query message) self.
Proof.
  destruct (query_logged message self) as [Hs Hv].
  unfold transmits, bind, ret.
  destruct (query message self) as [[r | e] self']; simpl in *; auto.
Qed.

(** ** The channel number check *)

Lemma check_ch_num_valid ch_num self :
  In ch_num CH_NUMS -> _check_ch_num ch_num self = (Ok tt, self).
Proof.
  intros H. unfold _check_ch_num.
  replace (existsb (Z.eqb ch_num) CH_NUMS) with true; [reflexivity |].
  symmetry. apply existsb_exists. exists ch_num. split; [exact H | apply Z.eqb_refl].
Qed.

Lemma check_ch_num_invalid ch_num self :
  ~ In ch_num CH_NUMS ->
  _check_ch_num ch_num self = (Raise (ValueError InvalidChNum), self).
Proof.
  intros H. unfold _check_ch_num.
  destruct (existsb (Z.eqb ch_num) CH_NUMS) eqn:E; [| reflexivity].
  apply existsb_exists in E. destruct E as [c [Hin Heq]].
  apply Z.eqb_eq in Heq. subst c. contradiction.
Qed.

(** A method that starts with the check stops there on a bad channel. *)
Lemma guarded_rejects {A} ch_num (body : M A) self :
  ~ In ch_num CH_NUMS ->
  rejects (_check_ch_num ch_num ;;; body) InvalidChNum self.
Proof.
  intros H. unfold rejects, bind.
  now rewrite (check_ch_num_invalid _ _ H).
Qed.

Lemma guarded_runs {A} ch_num (body : M A) self :
  In ch_num CH_NUMS ->
  (_check_ch_num ch_num ;;; body) self = body self.
Proof.
  intros H. unfold bind. now rewrite (check_ch_num_valid _ _ H).
Qed.

(** C4: a channel number outside 1, 2, 3, 4 makes each of the ten
    channel-scoped setters and getters raise the [ValueError] of
    [_check_ch_num], with no call made on the resource. *)
Theorem invalid_channel_rejected
    (float_of_str : string -> result spec_float)
    (ch_num : Z) (label : pyval) (coupling : string)
    (bandwidth scale position : number) (self : handle) :
  ~ In ch_num CH_NUMS ->
  rejects (set_channel_label ch_num label) InvalidChNum self
  /\ rejects (get_channel_label ch_num) InvalidChNum self
  /\ rejects (set_channel_coupling ch_num coupling) InvalidChNum self
  /\ rejects (get_channel_coupling ch_num) InvalidChNum self
  /\ rejects (set_channel_bandwidth ch_num bandwidth) InvalidChNum self
  /\ rejects (get_channel_bandwidth float_of_str ch_num) InvalidChNum self
  /\ rejects (set_channel_scale ch_num scale) InvalidChNum self
  /\ rejects (get_channel_scale float_of_str ch_num) InvalidChNum self
  /\ rejects (set_channel_position ch_num position) InvalidChNum self
  /\ rejects (get_channel_position float_of_str ch_num) InvalidChNum self.
Proof.
  intros H. repeat split; apply guarded_rejects; exact H.
Qed.

Lemma invalid_channel_rejected_witness :
  ~ In 5 CH_NUMS
  /\ rejects (set_channel_label 5 (VStr "probe")) InvalidChNum Bench.scope
  /\ rejects (get_channel_position (fun _ => Raise (ValueError NotAFloat)) 5)
       InvalidChNum Bench.scope.
Proof.
  assert (H : ~ In 5 CH_NUMS).
  { simpl. intros [E | [E | [E | [E | []]]]]; discriminate E. }
  split; [exact H |].
  pose proof (invalid_channel_rejected (fun _ => Raise (ValueError NotAFloat))
                5 (VStr "probe") "AC" (PyInt 1) (PyInt 1) (PyInt 0)
                Bench.scope H) as T.
  split; [apply T | apply T].
Defined.

(** ** Math channels *)

Lemma int_to_str_within limit n :
  limit <= 0 \/ ndigits (Z.abs n) <= limit ->
  int_to_str limit n = Ok (format_d n).
Proof.
  intros H. unfold int_to_str.
  replace ((0 <? limit) && (limit <? ndigits (Z.abs n))) with false;
    [reflexivity |].
  symmetry. apply andb_false_iff.
  destruct H as [H | H]; [left | right]; apply Z.ltb_ge; lia.
Qed.

Lemma int_to_str_beyond limit n :
  0 < limit < ndigits (Z.abs n) ->
  int_to_str limit n = Raise (ValueError TooManyDigits).
Proof.
  intros [H1 H2]. unfold int_to_str.
  replace (0 <? limit) with true by (symmetry; apply Z.ltb_lt; lia).
  replace (limit <? ndigits (Z.abs n)) with true
    by (symmetry; apply Z.ltb_lt; lia).
  reflexivity.
Qed.

(** For a number within the limit a math-channel method is the method with
    the limit lifted. *)
Lemma limit_not_reached limit num (text : string) self :
  limit <= 0 \/ ndigits (Z.abs num) <= limit ->
  Limited.set_math_channel_type limit num text self
  = set_math_channel_type num text self
  /\ Limited.get_math_channel_type limit num self
     = get_math_channel_type num self
  /\ Limited.set_math_channel_function limit num text self
     = set_math_channel_function num text self
  /\ Limited.get_math_channel_function limit num self
     = get_math_channel_function num self.
Proof.
  intros H. apply int_to_str_within in H.
  unfold Limited.set_math_channel_type, Limited.get_math_channel_type,
    Limited.set_math_channel_function, Limited.get_math_channel_function,
    set_math_channel_type, get_math_channel_type,
    set_math_channel_function, get_math_channel_function.
  repeat split.
  - destruct (negb (str_in text _)); [reflexivity |].
    unfold bind at 1. unfold lift. now rewrite H.
  - unfold bind, lift. now rewrite H.
  - unfold bind at 1. unfold lift. now rewrite H.
  - unfold bind at 1. unfold lift. now rewrite H.
Qed.

(** Beyond the limit the conversion of the number raises, before any call
    on the resource. *)
Lemma limit_exceeded limit num (text : string) self :
  0 < limit < ndigits (Z.abs num) ->
  In text ["DUAL"; "FFT"; "ADVanced"; "SPECTRUM"] ->
  rejects (Limited.set_math_channel_type limit num text) TooManyDigits self
  /\ rejects (Limited.get_math_channel_type limit num) TooManyDigits self
  /\ (forall function,
        rejects (Limited.set_math_channel_function limit num function)
          TooManyDigits self)
  /\ rejects (Limited.get_math_channel_function limit num) TooManyDigits self.
Proof.
  intros H Ht. apply int_to_str_beyond in H.
  unfold rejects, Limited.set_math_channel_type, Limited.get_math_channel_type,
    Limited.set_math_channel_function, Limited.get_math_channel_function.
  replace (str_in text _) with true
    by (symmetry; apply existsb_exists; exists text;
        split; [exact Ht | apply String.eqb_refl]).
  cbn [negb]. unfold bind, lift. rewrite H. repeat split.
Qed.

(** C10, as the code has it: the math-channel operations do not check
    [num]. For every integer whose decimal text the interpreter produces,
    that is every integer when the digit limit is lifted and every integer
    of at most [limit] digits otherwise, each of them makes one call on the
    resource, with a MATH<num> message built from the decimal text of that
    integer, and raises no [ValueError]; for [set_math_channel_type] this
    holds for each of the four math types. For an integer with more digits
    the formatting raises [ValueError] and no call is made. *)
Theorem math_channel_number_unchecked
    (limit num : Z) (math_type function : string) (self : handle) :
  In math_type ["DUAL"; "FFT"; "ADVanced"; "SPECTRUM"] ->
  (limit <= 0 \/ ndigits (Z.abs num) <= limit ->
   transmits (Limited.set_math_channel_type limit num math_type)
     (Write ("MATH" ++ format_d num ++ ":TYPe " ++ math_type)) self
   /\ transmits (Limited.get_math_channel_type limit num)
        (Query ("MATH" ++ format_d num ++ ":TYPe?")) self
   /\ transmits (Limited.set_math_channel_function limit num function)
        (Write ("MATH" ++ format_d num ++ ":DEFine "
                ++ dquote ++ function ++ dquote)) self
   /\ transmits (Limited.get_math_channel_function limit num)
        (Query ("MATH" ++ format_d num ++ ":DEFine?")) self)
  /\ (0 < limit < ndigits (Z.abs num) ->
      rejects (Limited.set_math_channel_type limit num math_type)
        TooManyDigits self
      /\ rejects (Limited.get_math_channel_type limit num) TooManyDigits self
      /\ rejects (Limited.set_math_channel_function limit num function)
           TooManyDigits self
      /\ rejects (Limited.get_math_channel_function limit num)
           TooManyDigits self).
Proof.
  intros H. split; intros Hn.
  - destruct (limit_not_reached limit num math_type self Hn) as [E1 [E2 [_ E4]]].
    destruct (limit_not_reached limit num function self Hn) as [_ [_ [E3 _]]].
    unfold transmits. rewrite E1, E2, E3, E4.
    repeat lazymatch goal with |- _ /\ _ => split end.
    1, 2: unfold set_math_channel_type;
      replace (str_in math_type _) with true;
      [ apply command_transmits
      | symmetry; apply existsb_exists; exists math_type;
        split; [exact H | apply String.eqb_refl] ].
    1, 2: apply query_transmits.
    1, 2: apply command_transmits.
    1, 2: apply query_then_transmits.
  - destruct (limit_exceeded limit num math_type self Hn H) as [R1 [R2 [R3 R4]]].
    repeat split; auto.
Qed.

Lemma math_channel_number_unchecked_witness :
  In "FFT" ["DUAL"; "FFT"; "ADVanced"; "SPECTRUM"]
  /\ ndigits (Z.abs (-3)) <= int_max_str_digits
  /\ transmits (Limited.set_math_channel_type int_max_str_digits (-3) "FFT")
       (Write "MATH-3:TYPe FFT") Bench.scope
  /\ transmits (Limited.get_math_channel_function int_max_str_digits 0)
       (Query "MATH0:DEFine?") Bench.scope.
Proof.
  assert (H : In "FFT" ["DUAL"; "FFT"; "ADVanced"; "SPECTRUM"]).
  { simpl. right. left. reflexivity. }
  assert (H3 : ndigits (Z.abs (-3)) <= int_max_str_digits)
    by (intros E; discriminate E).
  assert (H0 : ndigits (Z.abs 0) <= int_max_str_digits)
    by (intros E; discriminate E).
  split; [exact H |]. split; [exact H3 |].
  split.
  - exact (proj1 (proj1 (math_channel_number_unchecked int_max_str_digits (-3)
                           "FFT" "CH1+CH2" Bench.scope H) (or_intror H3))).
  - exact (proj2 (proj2 (proj2 (proj1 (math_channel_number_unchecked
                           int_max_str_digits 0 "FFT" "CH1+CH2"
                           Bench.scope H) (or_intror H0))))).
Defined.

(** C10, as stated, fails on an interpreter with its default limit of 4300
    digits: 10**4300 is an integer, and each of the four operations raises
    [ValueError] on it, with no call made on the resource. *)
Lemma longer_number_not_transmitted :
  rejects (Limited.set_math_channel_type int_max_str_digits Bench.longer "FFT")
    TooManyDigits Bench.scope
  /\ rejects (Limited.get_math_channel_type int_max_str_digits Bench.longer)
       TooManyDigits Bench.scope
  /\ rejects (Limited.set_math_channel_function int_max_str_digits
                Bench.longer "CH1+CH2")
       TooManyDigits Bench.scope
  /\ rejects (Limited.get_math_channel_function int_max_str_digits Bench.longer)
       TooManyDigits Bench.scope
  /\ (forall c,
        ~ transmits (Limited.get_math_channel_type int_max_str_digits
                       Bench.longer) c Bench.scope).
Proof.
  assert (E : int_to_str int_max_str_digits Bench.longer
              = Raise (ValueError TooManyDigits)) by (vm_compute; reflexivity).
  assert (R : rejects (Limited.get_math_channel_type int_max_str_digits
                         Bench.longer) TooManyDigits Bench.scope).
  { unfold rejects, Limited.get_math_channel_type, bind, lift. now rewrite E. }
  split; [| split; [exact R | split; [| split]]].
  - unfold rejects, Limited.set_math_channel_type. cbn [str_in existsb].
    unfold bind, lift. rewrite E. reflexivity.
  - unfold rejects, Limited.set_math_channel_function, bind, lift. now rewrite E.
  - unfold rejects, Limited.get_math_channel_function, bind, lift. now rewrite E.
  - intros c [H _]. unfold rejects in R. rewrite R in H.
    destruct c; discriminate H.
Qed.

(** ** Closing *)

(** C9: once [close], or the [__exit__] of a [with] block, has returned
    normally, a further [close] returns normally too and changes nothing
    of the instance. The driver forwards to the resource; a resource whose
    session is gone ignores the call. *)
Theorem close_idempotent (self closed : handle) :
  close self = (Ok tt, closed) \/ __exit__ self = (Ok tt, closed) ->
  close closed = (Ok tt, closed).
Proof.
  intros H.
  assert (H' : close self = (Ok tt, closed)) by (destruct H; assumption).
  clear H. revert H'.
  unfold close, on_inst, Visa.close.
  destruct self as [name [d l s]]; simpl.
  destruct s; simpl.
  - destruct (on_close d l); simpl; intros E; inversion E; subst; reflexivity.
  - intros E; inversion E; subst; reflexivity.
Qed.

Lemma close_idempotent_witness :
  close Bench.scope = (Ok tt, snd (close Bench.scope))
  /\ close (snd (close Bench.scope)) = (Ok tt, snd (close Bench.scope)).
Proof.
  assert (H : close Bench.scope = (Ok tt, snd (close Bench.scope)))
    by reflexivity.
  split; [exact H |].
  exact (close_idempotent Bench.scope (snd (close Bench.scope)) (or_introl H)).
Defined.

(** After a close every write or query raises [InvalidSession]. *)
Lemma closed_session_invalid self closed message :
  close self = (Ok tt, closed) ->
  fst (command message closed) = Raise (Visa InvalidSession)
  /\ fst (query message closed) = Raise (Visa InvalidSession).
Proof.
  unfold close, command, write, query, on_inst, Visa.close, Visa.write, Visa.query.
  destruct self as [name [d l s]]; simpl.
  destruct s; simpl.
  - destruct (on_close d l); simpl; intros E; inversion E; subst; simpl; auto.
  - intros E; inversion E; subst; simpl; auto.
Qed.

(** ** Construction *)

(** C8: whatever the class and the arguments, [create] returns: the
    instance when the construction returned one, and [None] when it
    raised. It never raises itself. *)
Theorem create_never_raises
    (cls : arguments -> result handle) (args : arguments) :
  (exists instance, cls args = Ok instance
                    /\ create cls args = Ok (Some instance))
  \/ (exists e, cls args = Raise e /\ create cls args = Ok None).
Proof.
  unfold create. destruct (cls args) as [instance | e].
  - left. exists instance. split; reflexivity.
  - right. exists e. split; reflexivity.
Qed.

(** Construction against simulated instruments: one that identifies
    itself, one that stays silent, one that answers with nothing. *)
Example create_on_scope :
  exists instance,
    create (ModelMDO34_init (Bench.lab (Bench.answering "TEKTRONIX,MDO34")))
      {| positional := [VStr "USB0::INSTR"]; keywords := [] |}
    = Ok (Some instance)
    /\ sent instance = [Query "*IDN?"].
Proof. eexists. split; reflexivity. Qed.

Example create_on_mute :
  ModelMDO34_init (Bench.lab Bench.mute)
    {| positional := [VStr "USB0::INSTR"]; keywords := [] |}
  = Raise (InstrIOError "Check communication failed.")
  /\ create (ModelMDO34_init (Bench.lab Bench.mute))
       {| positional := [VStr "USB0::INSTR"]; keywords := [] |}
     = Ok None.
Proof. split; reflexivity. Qed.

Example create_without_resource_name :
  create (ModelMDO34_init (Bench.lab Bench.mute))
    {| positional := []; keywords := [("timeout", VNum (PyInt 5000))] |}
  = Ok None.
Proof. reflexivity. Qed.

(** ** The communication check *)

(** [_check_communication] turns a [VisaIOError] of the identity query into
    [InstrIOError], and nothing else. *)
Lemma query_raises_visa message self e :
  fst (query message self) = Raise e -> exists v, e = Visa v.
Proof.
  unfold query, on_inst, Visa.query.
  destruct (session (_inst self)); simpl.
  - destruct (on_query _ _) as [text | v]; simpl; intros H; inversion H.
    now exists v.
  - intros H; inversion H. now eexists.
Qed.

Lemma check_communication_InstrIOError self :
  (exists msg, fst (_check_communication self) = Raise (InstrIOError msg))
  <-> (exists status, fst (idn self) = Raise (Visa (VisaIOError status))).
Proof.
  pose proof (query_raises_visa "*IDN?" self) as Hv. fold idn in Hv.
  unfold _check_communication, try_except, bind.
  destruct (idn self) as [[text | e] self']; simpl in *.
  - split.
    + intros [msg H]. destruct (is_empty text); discriminate H.
    + intros [status H]. discriminate H.
  - destruct (Hv e eq_refl) as [v ->]. split.
    + intros [msg H].
      destruct v as [status | | what]; simpl in H; try discriminate H.
      now exists status.
    + intros [status H]. inversion H; subst. simpl. now eexists.
Qed.

Lemma check_communication_empty self :
  fst (idn self) = Ok EmptyString ->
  fst (_check_communication self) = Raise (ValueError EmptyIDN).
Proof.
  unfold _check_communication, try_except, bind.
  destruct (idn self) as [[text | e] self']; simpl; intros H;
    inversion H; subst; reflexivity.
Qed.

(** C3, on the code: an instrument that answers the identity query with the
    empty text makes [_check_communication] raise the [ValueError] of its
    own test. The [except] clause is for [VisaIOError] only, so the error
    is not turned into [InstrIOError]; the instrument that does not answer
    at all is. *)
Theorem check_communication_empty_identity :
  fst (idn (Bench.opened (Bench.answering EmptyString))) = Ok EmptyString
  /\ fst (_check_communication (Bench.opened (Bench.answering EmptyString)))
     = Raise (ValueError EmptyIDN)
  /\ fst (_check_communication (Bench.opened Bench.mute))
     = Raise (InstrIOError "Check communication failed.").
Proof. repeat split. Qed.

(** ** Getters of text *)

(** C7, as the code has it: [get_channel_label] and
    [get_math_channel_function] return the normal form of the answer,
    whitespace stripped and then quotes; [get_channel_coupling] strips the
    whitespace only; [get_math_channel_type] returns the answer as it is. *)
Theorem text_getters_parse
    (ch_num num : Z) (r : string) (self self' : handle) :
  In ch_num CH_NUMS ->
  (query ("CH" ++ format_d ch_num ++ ":LABel?") self = (Ok r, self') ->
   get_channel_label ch_num self = (Ok (normal_form r), self'))
  /\ (query ("MATH" ++ format_d num ++ ":DEFine?") self = (Ok r, self') ->
      get_math_channel_function num self = (Ok (normal_form r), self'))
  /\ (query ("CH" ++ format_d ch_num ++ ":COUPling?") self = (Ok r, self') ->
      get_channel_coupling ch_num self = (Ok (strip r), self'))
  /\ (query ("MATH" ++ format_d num ++ ":TYPe?") self = (Ok r, self') ->
      get_math_channel_type num self = (Ok r, self')).
Proof.
  intros Hch. repeat split; intros Hq.
  - unfold get_channel_label. rewrite guarded_runs by exact Hch.
    unfold bind. now rewrite Hq.
  - unfold get_math_channel_function, bind. now rewrite Hq.
  - unfold get_channel_coupling. rewrite guarded_runs by exact Hch.
    unfold bind. now rewrite Hq.
  - exact Hq.
Qed.

Lemma text_getters_parse_witness :
  In 1 CH_NUMS
  /\ fst (query "CH1:LABel?" (Bench.opened (Bench.answering Bench.padded_label)))
     = Ok Bench.padded_label
  /\ fst (get_channel_label 1 (Bench.opened (Bench.answering Bench.padded_label)))
     = Ok "probe A".
Proof.
  assert (H : In 1 CH_NUMS) by (simpl; left; reflexivity).
  split; [exact H |]. split; [reflexivity |].
  pose proof (proj1 (text_getters_parse 1 1 Bench.padded_label
                (Bench.opened (Bench.answering Bench.padded_label))
                (snd (query "CH1:LABel?"
                        (Bench.opened (Bench.answering Bench.padded_label))))
                H) eq_refl) as T.
  rewrite T. reflexivity.
Defined.

(** C7, as stated, fails for two of the four getters: a coupling answered
    in quotes comes back in quotes, and a math type answered with blanks
    around it comes back with the blanks. *)
Lemma coupling_and_math_type_not_normalised :
  fst (get_channel_coupling 1 (Bench.opened (Bench.answering Bench.quoted_AC)))
  = Ok Bench.quoted_AC
  /\ normal_form Bench.quoted_AC = "AC"
  /\ Bench.quoted_AC <> normal_form Bench.quoted_AC
  /\ fst (get_math_channel_type 1
            (Bench.opened (Bench.answering Bench.padded_DUAL)))
     = Ok Bench.padded_DUAL
  /\ normal_form Bench.padded_DUAL = "DUAL"
  /\ Bench.padded_DUAL <> normal_form Bench.padded_DUAL.
Proof.
  repeat split; try reflexivity; intros H; vm_compute in H; discriminate H.
Qed.

(** ** Comparisons and conversions of numbers *)

Lemma interval_check lo hi x qlo qhi :
  value lo = Some (Fin qlo) ->
  value hi = Some (Fin qhi) ->
  py_le lo x && py_le x hi = true <-> in_interval qlo qhi x.
Proof.
  intros Hlo Hhi. unfold py_le, in_interval. rewrite Hlo, Hhi.
  destruct (value x) as [[| q |] |]; simpl;
    rewrite ?andb_true_iff, ?Qle_bool_iff; intuition discriminate.
Qed.

Lemma non_positive_check x : py_le x (PyInt 0) = true <-> non_positive x.
Proof.
  unfold py_le, non_positive.
  destruct (value x) as [[| q |] |]; simpl; rewrite ?Qle_bool_iff;
    intuition discriminate.
Qed.

Lemma positive_check x : positive x -> py_le x (PyInt 0) = false.
Proof.
  unfold py_le, positive.
  destruct (value x) as [[| q |] |]; simpl; try tauto.
  intros H. apply not_true_is_false. rewrite Qle_bool_iff.
  now apply Qlt_not_le.
Qed.

(** Small integers convert to [float] without overflow. *)
Lemma float_of_int_small z :
  -1000 <= z <= 1000 -> exists f, float_of_int z = Ok f.
Proof.
  intros H.
  assert (T : forallb (fun n => is_ok (float_of_int (Z.of_nat n - 1000)))
                (seq 0 2001) = true) by (vm_compute; reflexivity).
  rewrite forallb_forall in T.
  specialize (T (Z.to_nat (z + 1000))).
  rewrite Z2Nat.id in T by lia.
  replace (z + 1000 - 1000) with z in T by lia.
  destruct (float_of_int z) as [f | e].
  - now exists f.
  - discriminate T. apply in_seq. lia.
Qed.

Lemma int_in_interval lo hi z :
  in_interval (inject_Z lo) (inject_Z hi) (PyInt z) -> lo <= z <= hi.
Proof.
  unfold in_interval. simpl. rewrite <- !Zle_Qle. tauto.
Qed.

Lemma to_float_in_interval lo hi x :
  -1000 <= lo -> hi <= 1000 ->
  in_interval (inject_Z lo) (inject_Z hi) x -> exists f, to_float x = Ok f.
Proof.
  intros Hlo Hhi H. destruct x as [z | f]; simpl.
  - apply float_of_int_small. apply int_in_interval in H. lia.
  - now exists f.
Qed.

(** The two float literals of the development are the binary64 values
    nearest to 10^-11 and 10^-9: within half a unit in the last place. *)
Lemma literals_nearest :
  valid_binary prec emax lit_10E_12 = true
  /\ 2 * Z.abs (6189700196426901 * 10 ^ 11 - 2 ^ 89) <= 10 ^ 11
  /\ valid_binary prec emax Bench.one_ns = true
  /\ 2 * Z.abs (4835703278458517 * 10 ^ 9 - 2 ^ 82) <= 10 ^ 9.
Proof.
  repeat split; try reflexivity; vm_compute; intros H; discriminate H.
Qed.

(** [400 * 10E-12] evaluates to 0x1.12e0be826d694p-28, which prints as
    3.9999999999999994e-09. *)
Lemma x_scale_lower_value :
  x_scale_lower = Ok (S754_finite false 4835703278458516 (-80)).
Proof. vm_compute. reflexivity. Qed.

(** ** Monad steps *)

Lemma bind_lift_ok {A B} (r : result A) (a : A) (k : A -> M B) self :
  r = Ok a -> (x <- lift r ;; k x) self = k a self.
Proof. intros ->. reflexivity. Qed.

(** ** The format codes on known values

    The texts Python prints for these arguments. *)

Example format_E_values :
  format_E 4 (PyInt 20000000) = Ok "2.0000E+07"
  /\ format_E 3 (PyInt 1) = Ok "1.000E+00"
  /\ format_E 4 (PyFloat Bench.one_ns) = Ok "1.0000E-09"
  /\ format_E 4 (PyFloat (S754_zero true)) = Ok "-0.0000E+00"
  /\ format_E 4 (PyFloat (S754_infinity false)) = Ok "INF"
  /\ format_E 4 (PyFloat S754_nan) = Ok "NAN"
  /\ format_E 4 (PyInt (2 ^ 1024 - 2 ^ 970 - 1)) = Ok "1.7977E+308"
  /\ format_E 4 (PyInt (2 ^ 1024 - 2 ^ 970)) = Raise OverflowError.
Proof. repeat split; vm_compute; reflexivity. Qed.

Example format_f_values :
  format_f 3 (PyInt (-8)) = Ok "-8.000"
  /\ format_f 3 (PyFloat Bench.lit_8_01) = Ok "8.010"
  /\ format_f 3 (PyFloat (S754_finite false 1 (-3))) = Ok "0.125"
  /\ format_f 2 (PyFloat (S754_finite false 1 (-3))) = Ok "0.12"
  /\ format_f 2 (PyFloat (S754_finite false 3 (-3))) = Ok "0.38"
  /\ format_f 0 (PyFloat (S754_finite false 5 (-1))) = Ok "2".
Proof. repeat split. Qed.

Example strip_values :
  strip Bench.padded_label = dquote ++ "probe A" ++ dquote
  /\ normal_form Bench.padded_label = "probe A"
  /\ strip_quotes (dquote ++ dquote ++ " x" ++ dquote) = " x"
  /\ strip (" " ++ newline) = EmptyString.
Proof. repeat split. Qed.

(** ** Vertical position *)

(** C5: on a valid channel, [set_channel_position] accepts exactly the
    positions in the closed interval from -8 to 8. An accepted position is
    sent as CH<n>:POSition with three decimals; any other one, a NaN
    included, raises the [ValueError] of the range test and nothing is
    sent. *)
Theorem set_channel_position_range
    (ch_num : Z) (position : number) (self : handle) :
  In ch_num CH_NUMS ->
  (in_interval (-8) 8 position ->
   exists text,
     format_f 3 position = Ok text
     /\ transmits (set_channel_position ch_num position)
          (Write ("CH" ++ format_d ch_num ++ ":POSition " ++ text)) self)
  /\ (~ in_interval (-8) 8 position ->
      rejects (set_channel_position ch_num position) InvalidPosition self).
Proof.
  intros Hch.
  pose proof (interval_check (PyInt (-8)) (PyInt 8) position
                (inject_Z (-8)) (inject_Z 8) eq_refl eq_refl) as Hrange.
  change (inject_Z (-8)) with (-8)%Q in Hrange.
  change (inject_Z 8) with 8%Q in Hrange.
  split; intros H.
  - destruct (to_float_in_interval (-8) 8 position) as [f Hf];
      [lia | lia | exact H |].
    exists (float_f 3 f). unfold format_f. rewrite Hf. split; [reflexivity |].
    unfold transmits, set_channel_position.
    rewrite guarded_runs by exact Hch.
    rewrite (proj2 Hrange H). cbn [negb].
    rewrite (bind_lift_ok _ (float_f 3 f)) by (unfold format_f; now rewrite Hf).
    apply command_transmits.
  - unfold rejects, set_channel_position.
    rewrite guarded_runs by exact Hch.
    destruct (py_le (PyInt (-8)) position && py_le position (PyInt 8)) eqn:E.
    + exfalso. apply H. now apply Hrange.
    + reflexivity.
Qed.

Lemma set_channel_position_range_witness :
  In 2 CH_NUMS
  /\ in_interval (-8) 8 (PyInt 8)
  /\ format_f 3 (PyInt 8) = Ok "8.000"
  /\ transmits (set_channel_position 2 (PyInt 8))
       (Write "CH2:POSition 8.000") Bench.scope
  /\ ~ in_interval (-8) 8 (PyFloat Bench.lit_8_01)
  /\ rejects (set_channel_position 2 (PyFloat Bench.lit_8_01))
       InvalidPosition Bench.scope.
Proof.
  assert (Hch : In 2 CH_NUMS) by (simpl; right; left; reflexivity).
  assert (Hin : in_interval (-8) 8 (PyInt 8)).
  { split; intros H; discriminate H. }
  assert (Hout : ~ in_interval (-8) 8 (PyFloat Bench.lit_8_01)).
  { intros [_ H]. apply H. reflexivity. }
  destruct (set_channel_position_range 2 (PyInt 8) Bench.scope Hch)
    as [Haccept _].
  destruct (set_channel_position_range 2 (PyFloat Bench.lit_8_01) Bench.scope Hch)
    as [_ Hreject].
  split; [exact Hch |]. split; [exact Hin |]. split; [reflexivity |].
  split; [| split; [exact Hout | exact (Hreject Hout)]].
  destruct (Haccept Hin) as [text [Htext Ht]].
  assert (E : text = "8.000").
  { assert (F : format_f 3 (PyInt 8) = Ok "8.000") by reflexivity.
    rewrite F in Htext. now inversion Htext. }
  rewrite E in Ht. exact Ht.
Defined.

(** The boundary values of the range test, on a simulated instrument. *)
Example position_boundaries :
  set_channel_position 1 (PyInt (-8)) Bench.scope
  = (Ok tt, snd (command "CH1:POSition -8.000" Bench.scope))
  /\ set_channel_position 1 (PyInt 8) Bench.scope
     = (Ok tt, snd (command "CH1:POSition 8.000" Bench.scope))
  /\ rejects (set_channel_position 1 (PyFloat Bench.lit_m8_01))
       InvalidPosition Bench.scope
  /\ rejects (set_channel_position 1 (PyFloat Bench.lit_8_01))
       InvalidPosition Bench.scope
  /\ rejects (set_channel_position 1 (PyFloat S754_nan))
       InvalidPosition Bench.scope.
Proof. repeat split. Qed.

(** ** Bandwidth and vertical scale *)

(** The conversion to [float] of the format codes fails in one way only. *)
Lemma to_float_fails x :
  (forall f, to_float x <> Ok f) -> to_float x = Raise OverflowError.
Proof.
  intros H. destruct x as [z | f]; simpl in *.
  - unfold float_of_int in *.
    destruct (binary_normalize prec emax z 0 false) as [s | s | | s m e];
      first [reflexivity | exfalso; eapply H; reflexivity].
  - exfalso. eapply H. reflexivity.
Qed.

(** C6, as the code has it: with a valid channel, a bandwidth or scale that
    is zero or negative raises the [ValueError] of the sign test and
    nothing is sent; one that is positive and is a [float], or an [int]
    that converts to a [float], is sent in scientific notation, with four
    decimals for the bandwidth and three for the scale; a positive [int]
    that does not convert to a [float] raises [OverflowError] and nothing
    is sent. *)
Theorem bandwidth_and_scale_sign
    (ch_num : Z) (x : number) (self : handle) :
  In ch_num CH_NUMS ->
  (non_positive x ->
   rejects (set_channel_bandwidth ch_num x) InvalidBandwidth self
   /\ rejects (set_channel_scale ch_num x) InvalidScale self)
  /\ (positive x ->
      forall f, to_float x = Ok f ->
      transmits (set_channel_bandwidth ch_num x)
        (Write ("CH" ++ format_d ch_num ++ ":BANdwidth " ++ float_E 4 f)) self
      /\ transmits (set_channel_scale ch_num x)
           (Write ("CH" ++ format_d ch_num ++ ":SCAle " ++ float_E 3 f)) self)
  /\ (positive x ->
      (forall f, to_float x <> Ok f) ->
      set_channel_bandwidth ch_num x self = (Raise OverflowError, self)
      /\ set_channel_scale ch_num x self = (Raise OverflowError, self)).
Proof.
  intros Hch. split; [| split].
  - intros H. apply non_positive_check in H.
    unfold rejects, set_channel_bandwidth, set_channel_scale.
    rewrite !guarded_runs by exact Hch. now rewrite H.
  - intros H f Hf. apply positive_check in H.
    unfold transmits, set_channel_bandwidth, set_channel_scale.
    rewrite !guarded_runs by exact Hch. rewrite H.
    rewrite (bind_lift_ok _ (float_E 4 f)) by (unfold format_E; now rewrite Hf).
    rewrite (bind_lift_ok _ (float_E 3 f)) by (unfold format_E; now rewrite Hf).
    split; apply command_transmits.
  - intros H Hf. apply positive_check in H. apply to_float_fails in Hf.
    unfold set_channel_bandwidth, set_channel_scale.
    rewrite !guarded_runs by exact Hch. rewrite H.
    unfold bind, lift, format_E. rewrite Hf. split; reflexivity.
Qed.

Lemma bandwidth_and_scale_sign_witness :
  In 1 CH_NUMS
  /\ positive (PyInt 20000000)
  /\ transmits (set_channel_bandwidth 1 (PyInt 20000000))
       (Write "CH1:BANdwidth 2.0000E+07") Bench.scope
  /\ non_positive (PyInt 0)
  /\ rejects (set_channel_scale 1 (PyInt 0)) InvalidScale Bench.scope
  /\ positive Bench.huge
  /\ (forall f, to_float Bench.huge <> Ok f)
  /\ set_channel_scale 1 Bench.huge Bench.scope
     = (Raise OverflowError, Bench.scope).
Proof.
  assert (Hch : In 1 CH_NUMS) by (simpl; left; reflexivity).
  assert (Hpos : positive (PyInt 20000000)) by reflexivity.
  assert (Hneg : non_positive (PyInt 0)) by (intros H; discriminate H).
  assert (Hhuge : positive Bench.huge) by (vm_compute; reflexivity).
  assert (Hno : forall f, to_float Bench.huge <> Ok f).
  { intros f H. vm_compute in H. discriminate H. }
  destruct (bandwidth_and_scale_sign 1 (PyInt 20000000) Bench.scope Hch)
    as [_ [Hsend _]].
  destruct (bandwidth_and_scale_sign 1 (PyInt 0) Bench.scope Hch)
    as [Hreject _].
  destruct (bandwidth_and_scale_sign 1 Bench.huge Bench.scope Hch)
    as [_ [_ Hover]].
  split; [exact Hch |]. split; [exact Hpos |].
  split; [exact (proj1 (Hsend Hpos (S754_finite false 5368709120000000 (-28))
                          eq_refl)) |].
  split; [exact Hneg |]. split; [exact (proj2 (Hreject Hneg)) |].
  split; [exact Hhuge |]. split; [exact Hno |].
  exact (proj2 (Hover Hhuge Hno)).
Defined.

(** C6, as stated, fails for an [int] beyond the range of [float]: 10**400
    is positive, the format code E cannot convert it, and both setters
    raise [OverflowError] with nothing sent. *)
Lemma huge_int_not_transmitted :
  positive Bench.huge
  /\ set_channel_bandwidth 1 Bench.huge Bench.scope
     = (Raise OverflowError, Bench.scope)
  /\ set_channel_scale 1 Bench.huge Bench.scope
     = (Raise OverflowError, Bench.scope)
  /\ (forall c, ~ transmits (set_channel_bandwidth 1 Bench.huge) c Bench.scope).
Proof.
  assert (E : set_channel_bandwidth 1 Bench.huge Bench.scope
              = (Raise OverflowError, Bench.scope))
    by (vm_compute; reflexivity).
  split; [vm_compute; reflexivity |].
  split; [exact E |].
  split; [vm_compute; reflexivity |].
  intros c [H _]. rewrite E in H. destruct c; discriminate H.
Qed.

(** ** Horizontal scale *)

Lemma x_scale_min_value :
  x_scale_min = (4835703278458516 # 1208925819614629174706176)%Q.
Proof. vm_compute. reflexivity. Qed.

(** The bound the code computes is ten times the 400 ps its message names:
    it lies between 3.999999e-9 and 4e-9. *)
Lemma x_scale_min_is_4ns :
  (3999999 # 1000000000000000 < x_scale_min)%Q
  /\ (x_scale_min < 4 # 1000000000)%Q
  /\ (400 # 1000000000000 < x_scale_min)%Q.
Proof. rewrite x_scale_min_value. repeat split. Qed.

Lemma x_scale_check scale :
  py_le (PyFloat (S754_finite false 4835703278458516 (-80))) scale
  && py_le scale (PyInt 1000) = true
  <-> in_interval x_scale_min 1000 scale.
Proof.
  exact (interval_check (PyFloat (S754_finite false 4835703278458516 (-80)))
           (PyInt 1000) scale x_scale_min (inject_Z 1000) eq_refl eq_refl).
Qed.

Lemma to_float_x_scale scale :
  in_interval x_scale_min 1000 scale -> exists f, to_float scale = Ok f.
Proof.
  destruct scale as [z | f]; [| now exists f].
  unfold in_interval. simpl. rewrite x_scale_min_value.
  intros [Hlo Hhi]. apply float_of_int_small.
  unfold Qle in Hlo, Hhi. cbn [Qnum Qden inject_Z] in Hlo, Hhi. lia.
Qed.

(** What [set_x_scale] does, on every input: it raises the [ValueError] of
    its range test or returns [None], and the instance is as before. *)
Lemma set_x_scale_cases scale self :
  (in_interval x_scale_min 1000 scale
   /\ set_x_scale scale self = (Ok tt, self))
  \/ (~ in_interval x_scale_min 1000 scale
      /\ set_x_scale scale self = (Raise (ValueError InvalidXScale), self)).
Proof.
  unfold set_x_scale.
  rewrite (bind_lift_ok _ _ _ _ x_scale_lower_value).
  pose proof (x_scale_check scale) as Hrange.
  destruct (py_le _ scale && py_le scale _) eqn:E; cbn [negb].
  - left. assert (H : in_interval x_scale_min 1000 scale) by now apply Hrange.
    split; [exact H |].
    destruct (to_float_x_scale scale H) as [f Hf].
    rewrite (bind_lift_ok _ (float_E 4 f)) by (unfold format_E; now rewrite Hf).
    reflexivity.
  - right. split; [| reflexivity].
    intros H. apply Hrange in H. discriminate H.
Qed.

(** C1, on the code: one nanosecond lies in the interval from 400e-12 to
    1000 of the claim, and [set_x_scale] raises the [ValueError] of its
    range test on it, because the bound written [400 * 10E-12] is 4e-9. *)
Theorem set_x_scale_rejects_one_nanosecond :
  in_interval (400 # 1000000000000) 1000 (PyFloat Bench.one_ns)
  /\ forall self,
       rejects (set_x_scale (PyFloat Bench.one_ns)) InvalidXScale self.
Proof.
  split.
  - split; intros H; discriminate H.
  - intros self. unfold rejects.
    destruct (set_x_scale_cases (PyFloat Bench.one_ns) self) as [[H _] | [_ E]];
      [| exact E].
    exfalso. destruct H as [H _]. apply H. reflexivity.
Qed.

(** C2: [set_x_scale] makes no call on the resource. On every input the
    instance, and with it the list of calls made, is the same afterwards;
    on an accepted scale the text of the command is built and the method
    returns [None]. *)
Theorem set_x_scale_transmits_nothing (scale : number) (self : handle) :
  snd (set_x_scale scale self) = self
  /\ sent (snd (set_x_scale scale self)) = sent self
  /\ (in_interval x_scale_min 1000 scale ->
      exists text,
        format_E 4 scale = Ok text
        /\ set_x_scale scale self = (Ok tt, self)).
Proof.
  destruct (set_x_scale_cases scale self) as [[H E] | [H E]]; rewrite E.
  - repeat split. intros _.
    destruct (to_float_x_scale scale H) as [f Hf].
    exists (float_E 4 f). unfold format_E. now rewrite Hf.
  - repeat split. intros H'. contradiction.
Qed.

Lemma set_x_scale_transmits_nothing_witness :
  in_interval x_scale_min 1000 (PyInt 1)
  /\ format_E 4 (PyInt 1) = Ok "1.0000E+00"
  /\ set_x_scale (PyInt 1) Bench.scope = (Ok tt, Bench.scope)
  /\ sent (snd (set_x_scale (PyInt 1) Bench.scope)) = [].
Proof.
  assert (H : in_interval x_scale_min 1000 (PyInt 1)).
  { split; intros H; discriminate H. }
  destruct (set_x_scale_transmits_nothing (PyInt 1) Bench.scope)
    as [_ [Hsent Hret]].
  destruct (Hret H) as [text [_ E]].
  split; [exact H |]. split; [reflexivity |]. split; [exact E |].
  exact Hsent.
Defined.

(* ===================================================================== *)
(** * Further properties of the driver                                    *)
(* ===================================================================== *)

(** ** Validation of text arguments *)

Lemma str_in_In x l : str_in x l = true <-> In x l.
Proof.
  unfold str_in. rewrite existsb_exists. split.
  - intros [y [Hy E]]. apply String.eqb_eq in E. now subst y.
  - intros H. exists x. split; [exact H | apply String.eqb_refl].
Qed.

(** X1: with a valid channel, [set_channel_label] accepts a label exactly
    when it is a [str] of at most 30 characters. An accepted label is sent
    between double quotes, as it is; any other value raises the
    [ValueError] of the label test and nothing is sent. *)
Theorem set_channel_label_validation
    (ch_num : Z) (label : pyval) (self : handle) :
  In ch_num CH_NUMS ->
  (forall s, label = VStr s -> (String.length s <= 30)%nat ->
     transmits (set_channel_label ch_num label)
       (Write ("CH" ++ format_d ch_num ++ ":LABel " ++ dquote ++ s ++ dquote))
       self)
  /\ (~ (exists s, label = VStr s /\ (String.length s <= 30)%nat) ->
      rejects (set_channel_label ch_num label) InvalidLabel self).
Proof.
  intros Hch. split.
  - intros s -> Hlen. unfold transmits, set_channel_label.
    rewrite guarded_runs by exact Hch.
    replace (30 <? Z.of_nat (String.length s)) with false
      by (symmetry; apply Z.ltb_ge; lia).
    apply command_transmits.
  - intros H. unfold rejects, set_channel_label.
    rewrite guarded_runs by exact Hch.
    destruct label as [| b | n | s]; try reflexivity.
    destruct (30 <? Z.of_nat (String.length s)) eqn:E; [reflexivity |].
    exfalso. apply H. exists s. split; [reflexivity |].
    apply Z.ltb_ge in E. lia.
Qed.

Lemma set_channel_label_validation_witness :
  In 3 CH_NUMS
  /\ transmits (set_channel_label 3 (VStr "probe A"))
       (Write ("CH3:LABel " ++ dquote ++ "probe A" ++ dquote)) Bench.scope
  /\ rejects (set_channel_label 3 (VStr "0123456789012345678901234567890"))
       InvalidLabel Bench.scope
  /\ rejects (set_channel_label 3 (VNum (PyInt 7))) InvalidLabel Bench.scope.
Proof.
  assert (Hch : In 3 CH_NUMS) by (simpl; right; right; left; reflexivity).
  split; [exact Hch |]. split; [| split].
  - exact (proj1 (set_channel_label_validation 3 (VStr "probe A") Bench.scope Hch)
             "probe A" eq_refl ltac:(simpl; lia)).
  - apply (proj2 (set_channel_label_validation 3
                    (VStr "0123456789012345678901234567890") Bench.scope Hch)).
    intros [s [E Hlen]]. inversion E; subst s. simpl in Hlen. lia.
  - apply (proj2 (set_channel_label_validation 3 (VNum (PyInt 7))
                    Bench.scope Hch)).
    intros [s [E _]]. discriminate E.
Defined.

(** X2: with a valid channel, [set_channel_coupling] accepts exactly the
    three texts AC, DC and DCREJect, in that spelling, and sends the
    accepted one; anything else raises the [ValueError] of the coupling
    test and nothing is sent. *)
Theorem set_channel_coupling_validation
    (ch_num : Z) (coupling : string) (self : handle) :
  In ch_num CH_NUMS ->
  (In coupling ["AC"; "DC"; "DCREJect"] ->
   transmits (set_channel_coupling ch_num coupling)
     (Write ("CH" ++ format_d ch_num ++ ":COUPling " ++ coupling)) self)
  /\ (~ In coupling ["AC"; "DC"; "DCREJect"] ->
      rejects (set_channel_coupling ch_num coupling) InvalidCoupling self).
Proof.
  intros Hch. split; intros H.
  - unfold transmits, set_channel_coupling.
    rewrite guarded_runs by exact Hch.
    rewrite (proj2 (str_in_In _ _) H). apply command_transmits.
  - unfold rejects, set_channel_coupling.
    rewrite guarded_runs by exact Hch.
    destruct (str_in coupling _) eqn:E; [| reflexivity].
    exfalso. apply H. now apply str_in_In.
Qed.

Lemma set_channel_coupling_validation_witness :
  In 4 CH_NUMS
  /\ transmits (set_channel_coupling 4 "DCREJect")
       (Write "CH4:COUPling DCREJect") Bench.scope
  /\ rejects (set_channel_coupling 4 "ac") InvalidCoupling Bench.scope.
Proof.
  assert (Hch : In 4 CH_NUMS) by (simpl; right; right; right; left; reflexivity).
  split; [exact Hch |]. split.
  - apply (proj1 (set_channel_coupling_validation 4 "DCREJect" Bench.scope Hch)).
    simpl. right. right. left. reflexivity.
  - apply (proj2 (set_channel_coupling_validation 4 "ac" Bench.scope Hch)).
    simpl. intros [E | [E | [E | []]]]; discriminate E.
Defined.

(** X3: [set_math_channel_type] tests the math type before anything else:
    a text that is none of DUAL, FFT, ADVanced, SPECTRUM raises the
    [ValueError] of that test for every channel number, and nothing is
    sent. *)
Theorem set_math_channel_type_validation
    (num : Z) (math_type : string) (self : handle) :
  ~ In math_type ["DUAL"; "FFT"; "ADVanced"; "SPECTRUM"] ->
  rejects (set_math_channel_type num math_type) InvalidMathType self.
Proof.
  intros H. unfold rejects, set_math_channel_type.
  destruct (str_in math_type _) eqn:E; [| reflexivity].
  exfalso. apply H. now apply str_in_In.
Qed.

Lemma set_math_channel_type_validation_witness :
  ~ In "fft" ["DUAL"; "FFT"; "ADVanced"; "SPECTRUM"]
  /\ rejects (set_math_channel_type 1 "fft") InvalidMathType Bench.scope.
Proof.
  assert (H : ~ In "fft" ["DUAL"; "FFT"; "ADVanced"; "SPECTRUM"]).
  { simpl. intros [E | [E | [E | [E | []]]]]; discriminate E. }
  split; [exact H |].
  exact (set_math_channel_type_validation 1 "fft" Bench.scope H).
Defined.

(** ** What a method leaves alone *)

Lemma silent_ret {A} (a : A) : silent (ret a).
Proof. intros self. reflexivity. Qed.

Lemma silent_raise {A} (e : exn) : silent (@raise A e).
Proof. intros self. reflexivity. Qed.

Lemma silent_lift {A} (r : result A) : silent (lift r).
Proof. intros self. reflexivity. Qed.

Lemma silent_bind {A B} (m : M A) (k : A -> M B) :
  silent m -> (forall a, silent (k a)) -> silent (x <- m ;; k x).
Proof.
  intros Hm Hk self. unfold bind.
  specialize (Hm self). destruct (m self) as [[a | e] self']; simpl in Hm; subst.
  - apply Hk.
  - reflexivity.
Qed.

Lemma silent_check_ch_num ch_num : silent (_check_ch_num ch_num).
Proof.
  intros self. unfold _check_ch_num.
  now destruct (negb (existsb (Z.eqb ch_num) CH_NUMS)).
Qed.

Lemma same_session_refl self : same_session self self.
Proof. repeat split. Qed.

Lemma one_call_silent {A} (m : M A) : silent m -> at_most_one_call m.
Proof.
  intros H self. rewrite H. split; [apply same_session_refl | now left].
Qed.

Lemma one_call_write message : at_most_one_call (write message).
Proof.
  intros self. unfold write, on_inst, Visa.write, sent.
  destruct (session (_inst self)); simpl;
    (split; [repeat split | right; now eexists]).
Qed.

Lemma one_call_query message : at_most_one_call (query message).
Proof.
  intros self. unfold query, on_inst, Visa.query, sent.
  destruct (session (_inst self)); simpl;
    (split; [repeat split | right; now eexists]).
Qed.

(** Checks first, then the call. *)
Lemma one_call_after {A B} (m : M A) (k : A -> M B) :
  silent m -> (forall a, at_most_one_call (k a)) ->
  at_most_one_call (x <- m ;; k x).
Proof.
  intros Hm Hk self. unfold bind.
  specialize (Hm self). destruct (m self) as [[a | e] self']; simpl in Hm; subst.
  - apply Hk.
  - split; [apply same_session_refl | now left].
Qed.

(** The call first, then the parsing of its answer. *)
Lemma one_call_before {A B} (m : M A) (k : A -> M B) :
  at_most_one_call m -> (forall a, silent (k a)) ->
  at_most_one_call (x <- m ;; k x).
Proof.
  intros Hm Hk self. unfold bind.
  specialize (Hm self). destruct (m self) as [[a | e] self']; simpl in *.
  - now rewrite Hk.
  - exact Hm.
Qed.

Lemma one_call_try_except {A} (body : M A) (handles : exn -> option (M A)) :
  at_most_one_call body ->
  (forall e handler, handles e = Some handler -> silent handler) ->
  at_most_one_call (try_except body handles).
Proof.
  intros Hb Hh self. unfold try_except.
  specialize (Hb self). destruct (body self) as [[a | e] self']; simpl in *.
  - exact Hb.
  - destruct (handles e) as [handler |] eqn:E; [| exact Hb].
    now rewrite (Hh e handler E).
Qed.

Ltac quiet :=
  repeat first
    [ apply silent_ret | apply silent_raise | apply silent_lift
    | apply silent_check_ch_num
    | apply silent_bind; [| intros ?]
    | match goal with
      | |- silent (if ?b then _ else _) => destruct b
      | |- silent (let _ := _ in _) => cbv zeta
      end ].

Ltac one_call :=
  repeat first
    [ apply one_call_write | apply one_call_query
    | apply one_call_silent; solve [quiet]
    | apply one_call_after; [solve [quiet] | intros ?]
    | apply one_call_before; [| intros ?; solve [quiet]]
    | match goal with
      | |- at_most_one_call (if ?b then _ else _) => destruct b
      | |- at_most_one_call (match ?v with _ => _ end) => destruct v
      end ].

(** X4: no setter or getter of the catalog, nor the identity, completion
    and clear-status commands, nor the communication check, makes more than
    one call on the resource, and none of them changes the resource name,
    the instrument behind the resource or the validity of the session:
    only [close] ends a session. *)
Theorem catalog_one_call_each
    (float_of_str : string -> result spec_float)
    (ch_num num : Z) (label : pyval) (text : string) (x : number) :
  (at_most_one_call (set_channel_label ch_num label)
   /\ at_most_one_call (get_channel_label ch_num)
   /\ at_most_one_call (set_channel_coupling ch_num text)
   /\ at_most_one_call (get_channel_coupling ch_num)
   /\ at_most_one_call (set_channel_bandwidth ch_num x)
   /\ at_most_one_call (get_channel_bandwidth float_of_str ch_num)
   /\ at_most_one_call (set_channel_scale ch_num x)
   /\ at_most_one_call (get_channel_scale float_of_str ch_num)
   /\ at_most_one_call (set_channel_position ch_num x)
   /\ at_most_one_call (get_channel_position float_of_str ch_num))
  /\ (at_most_one_call (set_math_channel_type num text)
      /\ at_most_one_call (get_math_channel_type num)
      /\ at_most_one_call (set_math_channel_function num text)
      /\ at_most_one_call (get_math_channel_function num)
      /\ at_most_one_call (set_x_scale x)
      /\ at_most_one_call (get_x_scale float_of_str))
  /\ (at_most_one_call idn
      /\ at_most_one_call opc
      /\ at_most_one_call cls
      /\ at_most_one_call _disable_response_header
      /\ at_most_one_call _check_communication).
Proof.
  repeat lazymatch goal with |- _ /\ _ => split end.
  all: unfold set_channel_label, get_channel_label, set_channel_coupling,
         get_channel_coupling, set_channel_bandwidth, get_channel_bandwidth,
         set_channel_scale, get_channel_scale, set_channel_position,
         get_channel_position, set_math_channel_type, get_math_channel_type,
         set_math_channel_function, get_math_channel_function, set_x_scale,
         get_x_scale, idn, opc, cls, _disable_response_header, command.
  all: try solve [one_call].
  apply one_call_try_except.
  - fold idn. unfold idn. one_call.
  - intros e handler H.
    destruct e as [why | | | m | [status | | what]]; inversion H.
    apply silent_raise.
Qed.

(** ** Stripping *)

Lemma lstrip_first p s c : first_char (lstrip p s) = Some c -> p c = false.
Proof.
  induction s as [| a r IH]; simpl; [discriminate |].
  destruct (p a) eqn:E; [exact IH |].
  simpl. intros H. inversion H; subst. exact E.
Qed.

Lemma rstrip_last p s c : last_char (rstrip p s) = Some c -> p c = false.
Proof.
  induction s as [| a r IH]; simpl; [discriminate |].
  destruct (rstrip p r) as [| b r'] eqn:E.
  - destruct (p a) eqn:Ea; simpl; [discriminate |].
    intros H. inversion H; subst. exact Ea.
  - intros H. apply IH. exact H.
Qed.

Lemma rstrip_first p s c :
  first_char (rstrip p s) = Some c -> first_char s = Some c.
Proof.
  destruct s as [| a r]; simpl; [discriminate |].
  destruct (rstrip p r); [destruct (p a) |]; simpl; intros H;
    first [discriminate H | exact H].
Qed.

Lemma lstrip_keeps p s :
  (forall c, first_char s = Some c -> p c = false) -> lstrip p s = s.
Proof.
  destruct s as [| a r]; simpl; [reflexivity |].
  intros H. now rewrite (H a eq_refl).
Qed.

Lemma rstrip_keeps p s :
  (forall c, last_char s = Some c -> p c = false) -> rstrip p s = s.
Proof.
  induction s as [| a r IH]; [reflexivity |].
  intros H. cbn [rstrip]. destruct r as [| b r'].
  - simpl. now rewrite (H a eq_refl).
  - rewrite IH by (intros c Hc; apply H; exact Hc).
    reflexivity.
Qed.

Lemma rstrip_drops p s c :
  p c = true -> rstrip p (s ++ String c EmptyString) = rstrip p s.
Proof.
  intros Hc. induction s as [| a r IH]; simpl.
  - now rewrite Hc.
  - now rewrite IH.
Qed.

Lemma is_quote_dquote : is_quote dquote_char = true.
Proof. reflexivity. Qed.

Lemma is_quote_other c : c <> dquote_char -> is_quote c = false.
Proof. intros H. unfold is_quote. now apply Ascii.eqb_neq. Qed.

(** What the getters of quoted text return has no quote left at either
    end. *)
Lemma normal_form_unquoted r : unquoted (normal_form r).
Proof.
  unfold unquoted, normal_form, strip_quotes, strip_with. split; intros H.
  - apply rstrip_first, lstrip_first in H.
    now rewrite is_quote_dquote in H.
  - apply rstrip_last in H.
    now rewrite is_quote_dquote in H.
Qed.

(** A text between two quotes comes back as it is, unless it begins or
    ends with a quote itself. *)
Lemma strip_quotes_quoted s :
  unquoted s -> strip_quotes (dquote ++ s ++ dquote) = s.
Proof.
  intros [Hf Hl]. unfold strip_quotes, strip_with, dquote.
  cbn [append lstrip]. rewrite is_quote_dquote.
  destruct s as [| a r].
  - reflexivity.
  - rewrite lstrip_keeps.
    + rewrite rstrip_drops by apply is_quote_dquote.
      apply rstrip_keeps. intros c Hc.
      apply is_quote_other. intros E. subst c. now apply Hl.
    + cbn [append first_char]. intros c Hc. inversion Hc; subst c.
      apply is_quote_other. intros E. subst a. now apply Hf.
Qed.

(** ** Labels and math functions *)

(** X5: the text that [get_channel_label] or [get_math_channel_function]
    returns never begins or ends with a double quote, whatever the
    instrument answered. *)
Theorem quoted_text_getters_unquoted
    (ch_num num : Z) (self self' : handle) (v : string) :
  (get_channel_label ch_num self = (Ok v, self') -> unquoted v)
  /\ (get_math_channel_function num self = (Ok v, self') -> unquoted v).
Proof.
  split.
  - unfold get_channel_label, bind.
    destruct (_check_ch_num ch_num self) as [[[] | e] self1]; [| discriminate].
    destruct (query _ self1) as [[r | e] self2]; [| discriminate].
    unfold ret. intros H. inversion H; subst. apply normal_form_unquoted.
  - unfold get_math_channel_function, bind.
    destruct (query _ self) as [[r | e] self2]; [| discriminate].
    unfold ret. intros H. inversion H; subst. apply normal_form_unquoted.
Qed.

Lemma quoted_text_getters_unquoted_witness :
  get_channel_label 1 (Bench.opened (Bench.answering Bench.padded_label))
  = (Ok "probe A",
     snd (query "CH1:LABel?" (Bench.opened (Bench.answering Bench.padded_label))))
  /\ unquoted "probe A".
Proof.
  assert (H : get_channel_label 1
                (Bench.opened (Bench.answering Bench.padded_label))
              = (Ok "probe A",
                 snd (query "CH1:LABel?"
                        (Bench.opened (Bench.answering Bench.padded_label)))))
    by reflexivity.
  split; [exact H |].
  exact (proj1 (quoted_text_getters_unquoted 1 1 _ _ "probe A") H).
Defined.

(** A command followed by a query, on an open session that takes the
    command: the answer is what the instrument gives after both calls. *)
Lemma command_then_query message question n answer self :
  session (_inst self) = true ->
  on_write (device (_inst self)) (sent self ++ [Write message])%list = Done n ->
  on_query (device (_inst self))
    (sent self ++ [Write message; Query question])%list = Done answer ->
  fst ((command message ;;; query question) self) = Ok answer
  /\ sent (snd ((command message ;;; query question) self))
     = (sent self ++ [Write message; Query question])%list.
Proof.
  destruct self as [name [d l s]].
  unfold bind, command, write, query, on_inst, Visa.write, Visa.query, sent, log.
  cbn [_inst session device calls resource_name].
  intros -> Hw Hq. rewrite Hw. cbn [to_result _inst session device calls].
  rewrite <- app_assoc. cbn [app]. rewrite Hq.
  split; reflexivity.
Qed.

(** X6: a label set and read back. On an open session, if the instrument
    takes the CH<n>:LABel command and answers the query that follows with
    the quoted label, blanks or a line end around it or not, then
    [get_channel_label] returns the label that [set_channel_label] was
    given, provided that label is at most 30 characters long and neither
    begins nor ends with a double quote. *)
Theorem channel_label_round_trip
    (ch_num : Z) (label answer : string) (n : Z) (self : handle) :
  In ch_num CH_NUMS ->
  (String.length label <= 30)%nat ->
  unquoted label ->
  session (_inst self) = true ->
  on_write (device (_inst self))
    (sent self
     ++ [Write ("CH" ++ format_d ch_num ++ ":LABel " ++ dquote ++ label ++ dquote)])%list
  = Done n ->
  on_query (device (_inst self))
    (sent self
     ++ [Write ("CH" ++ format_d ch_num ++ ":LABel " ++ dquote ++ label ++ dquote);
         Query ("CH" ++ format_d ch_num ++ ":LABel?")])%list
  = Done answer ->
  strip answer = dquote ++ label ++ dquote ->
  fst ((set_channel_label ch_num (VStr label) ;;; get_channel_label ch_num) self)
  = Ok label.
Proof.
  intros Hch Hlen Hu Hs Hw Hq Ha.
  destruct (command_then_query _ _ _ _ _ Hs Hw Hq) as [Hr _].
  revert Hr. unfold set_channel_label, get_channel_label.
  replace (30 <? Z.of_nat (String.length label)) with false
    by (symmetry; apply Z.ltb_ge; lia).
  unfold bind. rewrite (check_ch_num_valid _ _ Hch).
  destruct (command _ self) as [[k | e] self1]; [| discriminate].
  cbn [ret]. rewrite (check_ch_num_valid _ _ Hch).
  destruct (query _ self1) as [[r | e] self2]; [| discriminate].
  cbn [fst ret]. intros E. inversion E; subst r.
  rewrite Ha. now rewrite strip_quotes_quoted.
Qed.

Lemma channel_label_round_trip_witness :
  fst ((set_channel_label 1 (VStr "probe A") ;;; get_channel_label 1)
         (Bench.opened Bench.echo))
  = Ok "probe A".
Proof.
  apply (channel_label_round_trip 1 "probe A"
           (dquote ++ "probe A" ++ dquote ++ newline) 20
           (Bench.opened Bench.echo)).
  - simpl. left. reflexivity.
  - simpl. lia.
  - split; intros H; discriminate H.
  - reflexivity.
  - reflexivity.
  - reflexivity.
  - reflexivity.
Defined.

(** A label that begins with a double quote does not come back: the getter
    strips the quote of the label with the quotes around it. *)
Example quoted_label_not_restored :
  fst ((set_channel_label 1 (VStr (dquote ++ "A")) ;;; get_channel_label 1)
         (Bench.opened Bench.echo))
  = Ok "A".
Proof. reflexivity. Qed.

(** ** Bandwidth and scale: what is not rejected *)

Lemma not_non_positive_check x : ~ non_positive x -> py_le x (PyInt 0) = false.
Proof.
  intros H. destruct (py_le x (PyInt 0)) eqn:E; [| reflexivity].
  exfalso. apply H. now apply non_positive_check.
Qed.

(** X7: the sign test of [set_channel_bandwidth] and [set_channel_scale]
    stops a number only when it is zero or negative. With a valid channel
    every other number that is a [float], NaN and infinity included, or
    converts to one, is sent in scientific notation; an [int] that does not
    convert ends the call with the error of the conversion and nothing is
    sent. *)
Theorem bandwidth_and_scale_not_rejected
    (ch_num : Z) (x : number) (self : handle) :
  In ch_num CH_NUMS ->
  ~ non_positive x ->
  (forall f, to_float x = Ok f ->
     transmits (set_channel_bandwidth ch_num x)
       (Write ("CH" ++ format_d ch_num ++ ":BANdwidth " ++ float_E 4 f)) self
     /\ transmits (set_channel_scale ch_num x)
          (Write ("CH" ++ format_d ch_num ++ ":SCAle " ++ float_E 3 f)) self)
  /\ (forall e, to_float x = Raise e ->
        set_channel_bandwidth ch_num x self = (Raise e, self)
        /\ set_channel_scale ch_num x self = (Raise e, self)).
Proof.
  intros Hch H. apply not_non_positive_check in H. split.
  - intros f Hf. unfold transmits, set_channel_bandwidth, set_channel_scale.
    rewrite !guarded_runs by exact Hch. rewrite H.
    rewrite (bind_lift_ok _ (float_E 4 f)) by (unfold format_E; now rewrite Hf).
    rewrite (bind_lift_ok _ (float_E 3 f)) by (unfold format_E; now rewrite Hf).
    split; apply command_transmits.
  - intros e He. unfold set_channel_bandwidth, set_channel_scale.
    rewrite !guarded_runs by exact Hch. rewrite H.
    unfold bind, lift, format_E. rewrite He. split; reflexivity.
Qed.

Lemma bandwidth_and_scale_not_rejected_witness :
  In 1 CH_NUMS
  /\ ~ non_positive (PyFloat S754_nan)
  /\ transmits (set_channel_bandwidth 1 (PyFloat S754_nan))
       (Write "CH1:BANdwidth NAN") Bench.scope
  /\ transmits (set_channel_scale 1 (PyFloat (S754_infinity false)))
       (Write "CH1:SCAle INF") Bench.scope.
Proof.
  assert (Hch : In 1 CH_NUMS) by (simpl; left; reflexivity).
  assert (Hnan : ~ non_positive (PyFloat S754_nan)) by (intros H; exact H).
  assert (Hinf : ~ non_positive (PyFloat (S754_infinity false)))
    by (intros H; exact H).
  split; [exact Hch |]. split; [exact Hnan |]. split.
  - exact (proj1 (proj1 (bandwidth_and_scale_not_rejected 1 (PyFloat S754_nan)
                           Bench.scope Hch Hnan) S754_nan eq_refl)).
  - exact (proj2 (proj1 (bandwidth_and_scale_not_rejected 1
                           (PyFloat (S754_infinity false))
                           Bench.scope Hch Hinf) (S754_infinity false) eq_refl)).
Defined.

(** ** The communication check, case by case *)

Lemma idn_logged self :
  sent (snd (idn self)) = (sent self ++ [Query "*IDN?"])%list
  /\ same_session self (snd (idn self)).
Proof.
  unfold idn, query, on_inst, Visa.query, sent.
  destruct (session (_inst self)); simpl; repeat split.
Qed.

(** X8: [_check_communication] asks for the identity once, in every case,
    and leaves the session as it is. It returns normally when the answer
    is a text that is not empty; it raises [InstrIOError] when the query
    raises [VisaIOError]; any other error of the VISA library, such as
    [InvalidSession] on a closed handle, reaches the caller unchanged. *)
Theorem check_communication_outcomes (self : handle) :
  sent (snd (_check_communication self)) = (sent self ++ [Query "*IDN?"])%list
  /\ same_session self (snd (_check_communication self))
  /\ (forall text, fst (idn self) = Ok text -> text <> EmptyString ->
        fst (_check_communication self) = Ok tt)
  /\ (forall status, fst (idn self) = Raise (Visa (VisaIOError status)) ->
        fst (_check_communication self)
        = Raise (InstrIOError "Check communication failed."))
  /\ (forall e, fst (idn self) = Raise (Visa e) ->
        (forall status, e <> VisaIOError status) ->
        fst (_check_communication self) = Raise (Visa e)).
Proof.
  destruct (idn_logged self) as [Hlog Hsame].
  unfold _check_communication, try_except, bind.
  destruct (idn self) as [[text | e] self1]; cbn [fst snd] in *.
  - destruct text as [| c r]; cbn [is_empty raise ret fst snd].
    + repeat split; try apply Hsame; try exact Hlog; intros; try discriminate.
      inversion H; subst. contradiction.
    + repeat split; try apply Hsame; try exact Hlog; intros; discriminate.
  - destruct e as [why | | | msg | [status | | what]];
      cbn [raise fst snd];
      (repeat split; try apply Hsame; try exact Hlog; intros; try discriminate;
       try reflexivity).
    all: try (inversion H; subst; exfalso; eapply H0; reflexivity).
    all: inversion H; subst; reflexivity.
Qed.

Lemma check_communication_outcomes_witness :
  fst (idn Bench.scope) = Ok "TEKTRONIX,MDO34,C010001,CF:91.1CT"
  /\ fst (_check_communication Bench.scope) = Ok tt
  /\ fst (idn (snd (close Bench.scope))) = Raise (Visa InvalidSession)
  /\ fst (_check_communication (snd (close Bench.scope)))
     = Raise (Visa InvalidSession).
Proof.
  split; [reflexivity |]. split; [| split; [reflexivity |]].
  - apply (proj1 (proj2 (proj2 (check_communication_outcomes Bench.scope)))
             "TEKTRONIX,MDO34,C010001,CF:91.1CT" eq_refl).
    intros H. discriminate H.
  - apply (proj2 (proj2 (proj2 (proj2
             (check_communication_outcomes (snd (close Bench.scope))))))
             InvalidSession eq_refl).
    intros status H. discriminate H.
Defined.

(** ** Construction, step by step *)

(** X9: an instance exists only after the instrument has identified itself.
    When the construction of a [ModelMDO34] returns, the arguments gave a
    resource name, [open_resource] returned a resource with a valid
    session, the one call made on it since is the query of the identity,
    and the answer to that query was a text that is not empty. The
    instance holds the name and that resource. *)
Theorem construction_identifies
    (w : World) (args : arguments) (self : handle) :
  ModelMDO34_init w args = Ok self ->
  exists name kwargs inst text,
    bind_signature args = Ok (name, kwargs)
    /\ open_resource w name (open_options kwargs) = Ok inst
    /\ session inst = true
    /\ on_query (device inst) (calls inst ++ [Query "*IDN?"])%list = Done text
    /\ text <> EmptyString
    /\ resource_name self = name
    /\ _inst self = log (Query "*IDN?") inst.
Proof.
  unfold ModelMDO34_init, VisaInstrument_init.
  destruct (bind_signature args) as [[name kwargs] | e]; [| discriminate].
  destruct (ResourceManager w) as [[] | e]; [| discriminate].
  destruct (open_resource w name (open_options kwargs)) as [inst | e] eqn:Ho;
    [| discriminate].
  unfold _check_communication, try_except, bind, idn, query, on_inst, Visa.query.
  cbn [_inst resource_name].
  destruct (session inst) eqn:Hs; [| discriminate].
  destruct (on_query (device inst) (calls (log (Query "*IDN?") inst)))
    as [text | v] eqn:Hq; cbn [to_result].
  - destruct text as [| c r]; cbn [is_empty raise ret]; [discriminate |].
    intros H. inversion H; subst self. clear H.
    exists name, kwargs, inst, (String c r).
    split; [reflexivity |]. split; [exact Ho |]. split; [exact Hs |].
    split; [exact Hq |]. split; [intros E; discriminate E |].
    split; reflexivity.
  - destruct v; cbn; intros H; discriminate H.
Qed.

Lemma construction_identifies_witness :
  exists self,
    ModelMDO34_init (Bench.lab (Bench.answering "TEKTRONIX,MDO34"))
      {| positional := []; keywords := [("resource_name", VStr "GPIB0::1::INSTR")] |}
    = Ok self
    /\ resource_name self = VStr "GPIB0::1::INSTR"
    /\ sent self = [Query "*IDN?"].
Proof.
  eexists. split; [reflexivity |].
  destruct (construction_identifies
              (Bench.lab (Bench.answering "TEKTRONIX,MDO34"))
              {| positional := [];
                 keywords := [("resource_name", VStr "GPIB0::1::INSTR")] |}
              _ eq_refl) as [name [kwargs [inst [text H]]]].
  split; reflexivity.
Defined.

(** ** Scoped use *)

Lemma close_releases self closed :
  close self = (Ok tt, closed) ->
  session (_inst closed) = false
  /\ sent closed = sent self
  /\ resource_name closed = resource_name self.
Proof.
  unfold close, on_inst, Visa.close, sent.
  destruct self as [name [d l s]]; cbn [_inst session device calls resource_name].
  destruct s.
  - destruct (on_close d l); intros H; inversion H; subst; repeat split.
  - intros H; inversion H; subst; repeat split.
Qed.

(** X10: a [with] block releases the session on every way out. Whatever
    the body does, returning a value or raising, if the close that follows
    it succeeds then the block ends as the body ended, with that value or
    that exception, and the session is no longer valid; if the close
    fails, its [VisaIOError] is what the block raises. *)
Theorem scoped_use_releases {A : Type}
    (body : handle -> M A) (self : handle) :
  (forall closed, close (snd (body self self)) = (Ok tt, closed) ->
     with_block body self = (fst (body self self), closed)
     /\ session (_inst closed) = false)
  /\ (forall e after, close (snd (body self self)) = (Raise e, after) ->
        with_block body self = (Raise e, after)
        /\ exists status, e = Visa (VisaIOError status)).
Proof.
  unfold with_block, __enter__, __exit__.
  destruct (body self self) as [r self2]. cbn [fst snd]. split.
  - intros closed H. rewrite H. split; [reflexivity |].
    now apply close_releases in H.
  - intros e after H. rewrite H. split; [reflexivity |].
    revert H. unfold close, on_inst, Visa.close.
    destruct (session (_inst self2)); [| discriminate].
    destruct (on_close _ _) as [status |]; [| discriminate].
    intros H. inversion H. now exists status.
Qed.

Lemma scoped_use_releases_witness :
  close (snd (set_channel_coupling 9 "AC" Bench.scope))
  = (Ok tt, snd (close Bench.scope))
  /\ with_block (fun inst => set_channel_coupling 9 "AC") Bench.scope
     = (Raise (ValueError InvalidChNum), snd (close Bench.scope))
  /\ session (_inst (snd (close Bench.scope))) = false.
Proof.
  assert (H : close (snd (set_channel_coupling 9 "AC" Bench.scope))
              = (Ok tt, snd (close Bench.scope))) by reflexivity.
  split; [exact H |].
  exact (proj1 (scoped_use_releases
                  (fun inst => set_channel_coupling 9 "AC") Bench.scope) _ H).
Defined.

(** A failing close takes the place of the result of the body. *)
Example scoped_use_on_stuck :
  with_block (fun inst => get_math_channel_type 1) (Bench.opened Bench.stuck)
  = (Raise (Visa (VisaIOError Bench.VI_ERROR_CLOSING_FAILED)),
     snd (get_math_channel_type 1 (Bench.opened Bench.stuck))).
Proof. reflexivity. Qed.

(** X11: a closed handle refuses to talk. After a close that succeeded,
    every command and every query raises [InvalidSession], and so does the
    communication check, which does not turn this error into
    [InstrIOError]; none of the three changes the session back. *)
Theorem closed_handle_refuses
    (self closed : handle) (message : string) :
  close self = (Ok tt, closed) ->
  fst (command message closed) = Raise (Visa InvalidSession)
  /\ fst (query message closed) = Raise (Visa InvalidSession)
  /\ fst (_check_communication closed) = Raise (Visa InvalidSession)
  /\ session (_inst (snd (command message closed))) = false
  /\ session (_inst (snd (query message closed))) = false.
Proof.
  intros H. apply close_releases in H. destruct H as [Hs _].
  unfold _check_communication, try_except, bind, idn, command, write, query,
    on_inst, Visa.write, Visa.query.
  rewrite Hs. cbn. rewrite Hs. repeat split.
Qed.

Lemma closed_handle_refuses_witness :
  close Bench.scope = (Ok tt, snd (close Bench.scope))
  /\ fst (command "*CLS" (snd (close Bench.scope))) = Raise (Visa InvalidSession).
Proof.
  assert (H : close Bench.scope = (Ok tt, snd (close Bench.scope)))
    by reflexivity.
  split; [exact H |].
  exact (proj1 (closed_handle_refuses Bench.scope _ "*CLS" H)).
Defined.

(** ** The options of the session *)

Lemma lookup_without name names kw :
  ~ In name names -> lookup name (without names kw) = lookup name kw.
Proof.
  intros H. induction kw as [| [k v] rest IH]; [reflexivity |].
  unfold without in *. cbn [filter fst lookup].
  destruct (String.eqb name k) eqn:E.
  - apply String.eqb_eq in E. subst k.
    replace (str_in name names) with false.
    + cbn [negb lookup]. now rewrite String.eqb_refl.
    + symmetry. apply not_true_is_false. now rewrite str_in_In.
  - destruct (negb (str_in k names)); cbn [lookup]; [rewrite E |]; exact IH.
Qed.

(** X12: the keyword arguments [VisaInstrument.__init__] hands to
    [open_resource]. Each of its six options is passed with the value the
    caller gave, or with its default (line feed terminations, 2000 ms
    timeout, no open timeout, 1 ms query delay, ascii) when the caller gave
    none; every other keyword argument of the caller is passed on with its
    value. *)
Theorem open_options_binding
    (kwargs : list (string * pyval)) (name : string) :
  (forall default,
     In (name, default)
       [ ("read_termination", VI_READ_TERMINATION);
         ("write_termination", VI_WRITE_TERMINATION);
         ("open_timeout", VI_OPEN_TIMEOUT);
         ("timeout", VI_TIMEOUT);
         ("query_delay", VI_QUERY_DELAY);
         ("encoding", VStr "ascii") ] ->
     lookup name (open_options kwargs) = Some (param name default kwargs))
  /\ (~ In name ["read_termination"; "write_termination"; "timeout";
                 "open_timeout"; "query_delay"; "encoding"] ->
      lookup name (open_options kwargs) = lookup name kwargs).
Proof.
  split.
  - intros default H. cbn [In] in H.
    destruct H as [E | [E | [E | [E | [E | [E | []]]]]]];
      inversion E; subst; reflexivity.
  - intros H. unfold open_options. cbn [app lookup].
    repeat match goal with
    | |- context [String.eqb name ?k] =>
        replace (String.eqb name k) with false
          by (symmetry; apply String.eqb_neq; intros E; apply H; subst name;
              cbn; tauto)
    end.
    apply lookup_without. exact H.
Qed.

Lemma open_options_binding_witness :
  lookup "timeout" (open_options [("timeout", VNum (PyInt 5000))])
  = Some (VNum (PyInt 5000))
  /\ lookup "encoding" (open_options [("timeout", VNum (PyInt 5000))])
     = Some (VStr "ascii")
  /\ lookup "access_mode"
       (open_options [("access_mode", VNum (PyInt 1)); ("timeout", VNone)])
     = Some (VNum (PyInt 1)).
Proof.
  split; [| split].
  - apply (proj1 (open_options_binding [("timeout", VNum (PyInt 5000))] "timeout")
             VI_TIMEOUT).
    cbn. tauto.
  - apply (proj1 (open_options_binding [("timeout", VNum (PyInt 5000))] "encoding")
             (VStr "ascii")).
    cbn. tauto.
  - rewrite (proj2 (open_options_binding
                      [("access_mode", VNum (PyInt 1)); ("timeout", VNone)]
                      "access_mode")).
    + reflexivity.
    + cbn. intros [E | [E | [E | [E | [E | [E | []]]]]]]; discriminate E.
Defined.

(** ** Setters and getters in pairs *)








(** ** Answers with blanks around them *)

Lemma lstrip_blank a s : blank a = true -> lstrip isspace (a ++ s) = lstrip isspace s.
Proof.
  induction a as [| c r IH]; simpl; [reflexivity |].
  intros H. apply andb_true_iff in H. destruct H as [Hc Hr].
  rewrite Hc. now apply IH.
Qed.

Lemma rstrip_all_blank b : blank b = true -> rstrip isspace b = EmptyString.
Proof.
  induction b as [| c r IH]; simpl; [reflexivity |].
  intros H. apply andb_true_iff in H. destruct H as [Hc Hr].
  now rewrite IH, Hc.
Qed.

Lemma rstrip_blank s b : blank b = true -> rstrip isspace (s ++ b) = rstrip isspace s.
Proof.
  intros H. induction s as [| c r IH]; simpl.
  - now apply rstrip_all_blank.
  - now rewrite IH.
Qed.

Lemma lstrip_all_blank b : blank b = true -> lstrip isspace b = EmptyString.
Proof.
  induction b as [| c r IH]; simpl; [reflexivity |].
  intros H. apply andb_true_iff in H. destruct H as [Hc Hr].
  rewrite Hc. now apply IH.
Qed.

(** A text without blanks at its ends is what [strip] finds between
    blanks. *)
Lemma strip_padded a s b :
  blank a = true -> blank b = true ->
  (forall c, first_char s = Some c -> isspace c = false) ->
  (forall c, last_char s = Some c -> isspace c = false) ->
  strip (a ++ s ++ b) = s.
Proof.
  intros Ha Hb Hf Hl. unfold strip, strip_with.
  rewrite lstrip_blank by exact Ha.
  destruct s as [| c r].
  - cbn [append]. now rewrite lstrip_all_blank.
  - rewrite lstrip_keeps.
    + rewrite rstrip_blank by exact Hb. now apply rstrip_keeps.
    + cbn [append first_char]. intros x Hx. inversion Hx; subst.
      now apply Hf.
Qed.

Lemma last_char_snoc s c : last_char (s ++ String c EmptyString) = Some c.
Proof.
  induction s as [| a r IH]; [reflexivity |].
  cbn [append last_char]. destruct (r ++ String c EmptyString) eqn:E.
  - destruct r; discriminate E.
  - exact IH.
Qed.

Lemma strip_padded_quoted a s b :
  blank a = true -> blank b = true ->
  strip (a ++ (dquote ++ s ++ dquote) ++ b) = dquote ++ s ++ dquote.
Proof.
  intros Ha Hb. apply strip_padded; try assumption.
  - cbn. intros c H. inversion H; subst. reflexivity.
  - intros c H. change (dquote ++ s ++ dquote)
      with (String dquote_char (s ++ String dquote_char EmptyString)) in H.
    cbn [last_char] in H.
    destruct (s ++ String dquote_char EmptyString) eqn:E.
    + destruct s; discriminate E.
    + rewrite <- E in H. rewrite last_char_snoc in H.
      inversion H; subst. reflexivity.
Qed.

(** X14: a coupling set and read back. On an open session, if the
    instrument takes the CH<n>:COUPling command and answers the query that
    follows with the same word, with or without blanks and line ends
    around it, [get_channel_coupling] returns the coupling that
    [set_channel_coupling] accepted. *)
Theorem channel_coupling_round_trip
    (ch_num : Z) (coupling lead trail : string) (n : Z) (self : handle) :
  In ch_num CH_NUMS ->
  In coupling ["AC"; "DC"; "DCREJect"] ->
  blank lead = true -> blank trail = true ->
  session (_inst self) = true ->
  on_write (device (_inst self))
    (sent self ++ [Write ("CH" ++ format_d ch_num ++ ":COUPling " ++ coupling)])%list
  = Done n ->
  on_query (device (_inst self))
    (sent self ++ [Write ("CH" ++ format_d ch_num ++ ":COUPling " ++ coupling);
                   Query ("CH" ++ format_d ch_num ++ ":COUPling?")])%list
  = Done (lead ++ coupling ++ trail) ->
  fst ((set_channel_coupling ch_num coupling ;;; get_channel_coupling ch_num) self)
  = Ok coupling.
Proof.
  intros Hch Hc Hlead Htrail Hs Hw Hq.
  destruct (command_then_query _ _ _ _ _ Hs Hw Hq) as [Hr _].
  revert Hr. unfold set_channel_coupling, get_channel_coupling.
  rewrite (proj2 (str_in_In _ _) Hc). cbn [negb].
  unfold bind. rewrite (check_ch_num_valid _ _ Hch).
  destruct (command _ self) as [[k | e] self1]; [| discriminate].
  cbn [ret]. rewrite (check_ch_num_valid _ _ Hch).
  destruct (query _ self1) as [[r | e] self2]; [| discriminate].
  cbn [fst ret]. intros E. inversion E; subst r. f_equal.
  apply strip_padded; try assumption;
    cbn [In] in Hc; destruct Hc as [<- | [<- | [<- | []]]];
    cbn; intros c H; inversion H; subst; reflexivity.
Qed.

Lemma channel_coupling_round_trip_witness :
  fst ((set_channel_coupling 2 "DCREJect" ;;; get_channel_coupling 2)
         (Bench.opened Bench.echo))
  = Ok "DCREJect".
Proof.
  apply (channel_coupling_round_trip 2 "DCREJect" EmptyString newline 22
           (Bench.opened Bench.echo)).
  - simpl. right. left. reflexivity.
  - simpl. right. right. left. reflexivity.
  - reflexivity.
  - reflexivity.
  - reflexivity.
  - reflexivity.
  - reflexivity.
Defined.

(** Two programs that agree step by step agree as a whole. *)
Lemma bind_agree {A B} (m m' : M A) (k k' : A -> M B) self :
  (forall s, m s = m' s) -> (forall a s, k a s = k' a s) ->
  (x <- m ;; k x) self = (x <- m' ;; k' x) self.
Proof.
  intros Hm Hk. unfold bind. rewrite Hm.
  destruct (m' self) as [[a | e] s]; [apply Hk | reflexivity].
Qed.

(** X15: a math function set and read back. On an open session, if the
    instrument takes the MATH<n>:DEFine command and answers the query that
    follows with the quoted definition, with or without blanks and line
    ends around it, [get_math_channel_function] returns the definition
    that [set_math_channel_function] was given, for every channel number
    whose decimal text is within the digit limit of the interpreter,
    provided the definition neither begins nor ends with a double quote. *)
Theorem math_function_round_trip
    (limit num : Z) (function lead trail : string) (n : Z) (self : handle) :
  limit <= 0 \/ ndigits (Z.abs num) <= limit ->
  unquoted function ->
  blank lead = true -> blank trail = true ->
  session (_inst self) = true ->
  on_write (device (_inst self))
    (sent self
     ++ [Write ("MATH" ++ format_d num ++ ":DEFine " ++ dquote ++ function ++ dquote)])%list
  = Done n ->
  on_query (device (_inst self))
    (sent self
     ++ [Write ("MATH" ++ format_d num ++ ":DEFine " ++ dquote ++ function ++ dquote);
         Query ("MATH" ++ format_d num ++ ":DEFine?")])%list
  = Done (lead ++ (dquote ++ function ++ dquote) ++ trail) ->
  fst ((Limited.set_math_channel_function limit num function ;;;
        Limited.get_math_channel_function limit num) self)
  = Ok function.
Proof.
  intros Hn Hu Hlead Htrail Hs Hw Hq.
  rewrite (bind_agree _ (set_math_channel_function num function)
             _ (fun _ => get_math_channel_function num))
    by (intros; now apply limit_not_reached).
  destruct (command_then_query _ _ _ _ _ Hs Hw Hq) as [Hr _].
  revert Hr. unfold set_math_channel_function, get_math_channel_function.
  unfold bind.
  destruct (command _ self) as [[k | e] self1]; [| discriminate].
  cbn [ret].
  destruct (query _ self1) as [[r | e] self2]; [| discriminate].
  cbn [fst ret]. intros E.
  assert (Er : r = lead ++ (dquote ++ function ++ dquote) ++ trail)
    by congruence.
  rewrite Er, strip_padded_quoted by assumption.
  now rewrite strip_quotes_quoted.
Qed.

Lemma math_function_round_trip_witness :
  fst ((Limited.set_math_channel_function int_max_str_digits (-1) "CH1+CH2" ;;;
        Limited.get_math_channel_function int_max_str_digits (-1))
         (Bench.opened Bench.echo))
  = Ok "CH1+CH2".
Proof.
  apply (math_function_round_trip int_max_str_digits (-1) "CH1+CH2"
           EmptyString newline 24 (Bench.opened Bench.echo)).
  - right. intros E. discriminate E.
  - split; intros H; discriminate H.
  - reflexivity.
  - reflexivity.
  - reflexivity.
  - reflexivity.
  - reflexivity.
Defined.
